(** * Swap I/O path of linux-5.5/mm/page_io.c (Canvas)

    A shallow embedding of the swap I/O path: the extent-table builder
    [generic_swapfile_activate], the request builder [get_swap_bio], the
    completion handlers [end_swap_bio_write] and [end_swap_bio_read], the
    slot-free notification, the write and read entry points, the
    page-table walk [filling_prefetch_pte] of the prefetch, and the
    latency profiling of prefetch hints.

    Integers of the C code are [Z] with the wrap-around of their C type
    written out ([u64] for [sector_t] and [unsigned long], [u32] for
    [unsigned]).  Code that mutates the page, the request or the counters
    is written in a small state monad over [world]; the operations on
    the page, the request and the task append an [event] to the log of
    the world, so that the order of the calls can be stated.  The
    VM_BUG_ON_PAGE assertions of the entry points (page locked, in the
    swap cache, not uptodate) are debug checks; they appear as conditions
    on the concrete inputs, not in the functions. *)

From Stdlib Require Import ZArith List Bool Lia.
Import ListNotations.
Local Open Scope Z_scope.

(** ** Machine integers *)

Definition wrap (w z : Z) : Z := z mod 2 ^ w.
Definition u64 : Z -> Z := wrap 64.
Definition u32 : Z -> Z := wrap 32.

(** The value of a C [int] after a conversion or an addition that does
    not fit: the kernel is built with -fno-strict-overflow, so it wraps
    around in two's complement. *)
Definition s32 (z : Z) : Z :=
  let m := wrap 32 z in if m <? 2 ^ 31 then m else m - 2 ^ 32.

(** ** Constants of the kernel headers

    The values of these macros and enumerators live in headers that are
    not part of mm/page_io.c; they are taken as parameters.
    [linux_x86_64] gives the values of an x86-64 build of Linux 5.5. *)

Record kconfig := {
  PAGE_SHIFT   : Z;   (* asm/page_types.h *)
  EINVAL       : Z;   (* errno-base.h *)
  ENOMEM       : Z;
  SWP_BLKDEV   : Z;   (* linux/swap.h, flag bits of swap_info_struct *)
  SWP_FS       : Z;
  HPAGE_PMD_NR : Z;   (* linux/huge_mm.h *)
  REQ_OP_READ  : Z;   (* linux/blk_types.h *)
  REQ_OP_WRITE : Z;
  REQ_SWAP     : Z;
  REQ_HIPRI    : Z
}.

Definition linux_x86_64 : kconfig := {|
  PAGE_SHIFT := 12; EINVAL := 22; ENOMEM := 12;
  SWP_BLKDEV := 64; SWP_FS := 256; HPAGE_PMD_NR := 512;
  REQ_OP_READ := 0; REQ_OP_WRITE := 1;
  REQ_SWAP := Z.shiftl 1 24; REQ_HIPRI := Z.shiftl 1 25 |}.

Definition PAGE_SIZE (K : kconfig) : Z := Z.shiftl 1 (PAGE_SHIFT K).

(** ** The backing store *)

Record swap_extent := {
  start_page  : Z;
  nr_pages    : Z;
  start_block : Z
}.

Record swap_info_struct := {
  flags       : Z;                 (* unsigned long *)
  max         : Z;                 (* unsigned int  *)
  pages       : Z;                 (* unsigned int  *)
  highest_bit : Z;                 (* unsigned int  *)
  extents     : list swap_extent;  (* swap_extent_root, in slot order *)
  bdev        : Z;                 (* the block device of the store *)
  (* sis->bdev->bd_disk->fops->swap_slot_free_notify != NULL *)
  fops_swap_slot_free_notify : bool
}.

Definition set_extents (sis : swap_info_struct) (l : list swap_extent)
  : swap_info_struct :=
  {| flags := flags sis; max := max sis; pages := pages sis;
     highest_bit := highest_bit sis; extents := l; bdev := bdev sis;
     fops_swap_slot_free_notify := fops_swap_slot_free_notify sis |}.

Definition set_slot_counts (sis : swap_info_struct) (page_no : Z)
  : swap_info_struct :=
  {| flags := flags sis;
     max := u32 page_no;
     pages := u32 (page_no - 1);
     highest_bit := u32 (page_no - 1);
     extents := extents sis; bdev := bdev sis;
     fops_swap_slot_free_notify := fops_swap_slot_free_notify sis |}.

(** The backing file: block size, byte size, and the logical-to-physical
    block map that [bmap] answers (0 for an unmapped block). *)
Record inode := {
  i_blkbits : Z;
  i_size    : Z;
  bmap      : Z -> Z
}.

(** Modelled from the spec: [add_swap_extent] of mm/swapfile.c is not part
    of mm/page_io.c.  Section 4.1 says that each stride "becomes one
    logical slot, appended to (or merged with) the current extent", an
    extent being "a maximal run of [count] consecutive logical slots
    starting at [slot_start], mapped to consecutive physical blocks
    starting at [block_start]", and that activation returns "the count of
    extents": the call returns 1 when it appends an extent and 0 when it
    extends the current (last) one. *)
Definition merges (se : swap_extent) (start_pg start_blk : Z) : bool :=
  (start_page se + nr_pages se =? start_pg) &&
  (start_block se + nr_pages se =? start_blk).

Definition add_swap_extent (sis : swap_info_struct)
    (start_pg nr_pg start_blk : Z) : Z * swap_info_struct :=
  let fresh := {| start_page := start_pg; nr_pages := nr_pg;
                  start_block := start_blk |} in
  match rev (extents sis) with
  | se :: before =>
      if merges se start_pg start_blk
      then (0, set_extents sis
                 (rev ({| start_page := start_page se;
                          nr_pages := nr_pages se + nr_pg;
                          start_block := start_block se |} :: before)))
      else (1, set_extents sis (extents sis ++ [fresh]))
  | [] => (1, set_extents sis [fresh])
  end.

(** ** generic_swapfile_activate *)

(** How the inner [for] loop over [block_in_page] leaves. *)
Inductive stride := Contiguous | Hole | Discontiguity.

(** [for (block_in_page = 1; block_in_page < blocks_per_page; block_in_page++)];
    [n] counts the iterations that remain. *)
Fixpoint for_block_in_page (ino : inode) (probe_block first_block : Z)
    (block_in_page : Z) (n : nat) : stride :=
  match n with
  | O => Contiguous
  | S n' =>
      let block := bmap ino (u64 (probe_block + block_in_page)) in
      if block =? 0 then Hole
      else if negb (block =? u64 (first_block + block_in_page))
      then Discontiguity
      else for_block_in_page ino probe_block first_block
             (block_in_page + 1) n'
  end.

(** The variables the [while] loop updates. *)
Record scan := {
  probe_block   : Z;   (* sector_t *)
  page_no       : Z;   (* unsigned long *)
  lowest_block  : Z;   (* sector_t *)
  highest_block : Z;   (* sector_t *)
  nr_extents    : Z;   (* int *)
  store         : swap_info_struct
}.

Definition reprobe (s : scan) : scan :=
  {| probe_block := u64 (probe_block s + 1); page_no := page_no s;
     lowest_block := lowest_block s; highest_block := highest_block s;
     nr_extents := nr_extents s; store := store s |}.

(** How the [while] loop leaves: it runs to its end, jumps to [out] with
    the error of [add_swap_extent], or jumps to [bad_bmap]. *)
Inductive loop_exit :=
| LoopEnd (s : scan)
| GotoOut (ret : Z) (sis : swap_info_struct)
| BadBmap (sis : swap_info_struct).

(** [add_swap_extent] is a function of mm/swapfile.c: the scan takes it
    as the parameter [add_extent], with the arguments and the result of
    the C function (the store, [start_page], [nr_pages], [start_block];
    the [int] it returns and the store as it leaves it).  The function
    [add_swap_extent] above is the one the specification describes. *)
Section Activate.
Context (K : kconfig)
        (add_extent : swap_info_struct -> Z -> Z -> Z ->
                      Z * swap_info_struct).

Fixpoint activate_loop (fuel : nat) (ino : inode)
    (blocks_per_page last_block : Z) (s : scan) : option loop_exit :=
  match fuel with
  | O => None
  | S fuel' =>
    if (u64 (probe_block s + blocks_per_page) <=? last_block) &&
       (page_no s <? max (store s))
    then
      let first_block := bmap ino (probe_block s) in
      if first_block =? 0 then Some (BadBmap (store s))
      else if negb (Z.land first_block (u32 (blocks_per_page - 1)) =? 0)
      then activate_loop fuel' ino blocks_per_page last_block (reprobe s)
      else
        match for_block_in_page ino (probe_block s) first_block 1
                (Z.to_nat (blocks_per_page - 1)) with
        | Hole => Some (BadBmap (store s))
        | Discontiguity =>
            activate_loop fuel' ino blocks_per_page last_block (reprobe s)
        | Contiguous =>
            let first_block :=
              Z.shiftr first_block (PAGE_SHIFT K - i_blkbits ino) in
            let lowest :=
              if negb (page_no s =? 0) && (first_block <? lowest_block s)
              then first_block else lowest_block s in
            let highest :=
              if negb (page_no s =? 0) && (first_block >? highest_block s)
              then first_block else highest_block s in
            let '(ret, sis) :=
              add_extent (store s) (page_no s) 1 first_block in
            if ret <? 0 then Some (GotoOut ret sis)
            else
              activate_loop fuel' ino blocks_per_page last_block
                {| probe_block := u64 (probe_block s + blocks_per_page);
                   page_no := u64 (page_no s + 1);
                   lowest_block := lowest; highest_block := highest;
                   nr_extents := s32 (nr_extents s + ret); store := sis |}
        end
    else Some (LoopEnd s)
  end.

(** Every iteration that does not leave the loop advances [probe_block]
    or [page_no], so this many iterations are enough
    (see [activate_loop_terminates]). *)
Definition activate_fuel (last_block : Z) (sis : swap_info_struct) : nat :=
  S (S (Z.to_nat last_block + Z.to_nat (max sis))).

(** The result is [(ret, sis, span)]: the return value, the store as the
    call leaves it, and the value of [*span] ([span0] on entry). *)
Definition generic_swapfile_activate (sis : swap_info_struct)
    (ino : inode) (span0 : Z) : option (Z * swap_info_struct * Z) :=
  let blkbits := i_blkbits ino in
  let blocks_per_page := u32 (Z.shiftr (PAGE_SIZE K) blkbits) in
  let last_block := u64 (Z.shiftr (i_size ino) blkbits) in
  match activate_loop (activate_fuel last_block sis) ino
          blocks_per_page last_block
          {| probe_block := 0; page_no := 0;
             lowest_block := u64 (-1); highest_block := 0;
             nr_extents := 0; store := sis |} with
  | None => None
  | Some (LoopEnd s) =>
      let ret := nr_extents s in
      let span := u64 (1 + highest_block s - lowest_block s) in
      let page_no := if page_no s =? 0 then 1 else page_no s in
      Some (ret, set_slot_counts (store s) page_no, span)
  | Some (GotoOut ret sis') => Some (ret, sis', span0)
  | Some (BadBmap sis') => Some (- EINVAL K, sis', span0)
  end.
End Activate.

(** ** Pages, requests and the world of one transfer *)

(** The page flags the I/O path reads and writes, whether the page is a
    transparent huge page, and [page_private], the swap entry. *)
Record page := {
  PG_locked     : bool;
  PG_writeback  : bool;
  PG_uptodate   : bool;
  PG_error      : bool;
  PG_dirty      : bool;
  PG_reclaim    : bool;
  PG_swapcache  : bool;
  PageTransHuge : bool;
  page_private  : Z
}.

Definition with_locked (b : bool) (p : page) : page :=
  {| PG_locked := b; PG_writeback := PG_writeback p;
     PG_uptodate := PG_uptodate p; PG_error := PG_error p;
     PG_dirty := PG_dirty p; PG_reclaim := PG_reclaim p;
     PG_swapcache := PG_swapcache p; PageTransHuge := PageTransHuge p;
     page_private := page_private p |}.

Definition with_writeback (b : bool) (p : page) : page :=
  {| PG_locked := PG_locked p; PG_writeback := b;
     PG_uptodate := PG_uptodate p; PG_error := PG_error p;
     PG_dirty := PG_dirty p; PG_reclaim := PG_reclaim p;
     PG_swapcache := PG_swapcache p; PageTransHuge := PageTransHuge p;
     page_private := page_private p |}.

Definition with_uptodate (b : bool) (p : page) : page :=
  {| PG_locked := PG_locked p; PG_writeback := PG_writeback p;
     PG_uptodate := b; PG_error := PG_error p;
     PG_dirty := PG_dirty p; PG_reclaim := PG_reclaim p;
     PG_swapcache := PG_swapcache p; PageTransHuge := PageTransHuge p;
     page_private := page_private p |}.

Definition with_error (b : bool) (p : page) : page :=
  {| PG_locked := PG_locked p; PG_writeback := PG_writeback p;
     PG_uptodate := PG_uptodate p; PG_error := b;
     PG_dirty := PG_dirty p; PG_reclaim := PG_reclaim p;
     PG_swapcache := PG_swapcache p; PageTransHuge := PageTransHuge p;
     page_private := page_private p |}.

Definition with_dirty (b : bool) (p : page) : page :=
  {| PG_locked := PG_locked p; PG_writeback := PG_writeback p;
     PG_uptodate := PG_uptodate p; PG_error := PG_error p;
     PG_dirty := b; PG_reclaim := PG_reclaim p;
     PG_swapcache := PG_swapcache p; PageTransHuge := PageTransHuge p;
     page_private := page_private p |}.

Definition with_reclaim (b : bool) (p : page) : page :=
  {| PG_locked := PG_locked p; PG_writeback := PG_writeback p;
     PG_uptodate := PG_uptodate p; PG_error := PG_error p;
     PG_dirty := PG_dirty p; PG_reclaim := b;
     PG_swapcache := PG_swapcache p; PageTransHuge := PageTransHuge p;
     page_private := page_private p |}.

(** The completion continuation of a request ([bio_end_io_t]). *)
Inductive bio_end_io_t :=
| EndSwapBioWrite
| EndSwapBioRead
| EndIoOther (id : Z).

(** A request.  [bi_private] is the optional waiting task, [bi_cnt] the
    reference count. *)
Record bio := {
  bi_sector  : Z;
  bi_disk    : Z;
  bi_end_io  : option bio_end_io_t;
  bi_size    : Z;
  bi_opf     : Z;
  bi_private : option Z;
  bi_status  : Z;
  bi_cnt     : Z
}.

(** What [bio_alloc] hands out: a zeroed request holding one reference. *)
Definition bio_fresh : bio :=
  {| bi_sector := 0; bi_disk := 0; bi_end_io := None; bi_size := 0;
     bi_opf := 0; bi_private := None; bi_status := 0; bi_cnt := 1 |}.

Definition with_sector (v : Z) (b : bio) : bio :=
  {| bi_sector := v; bi_disk := bi_disk b; bi_end_io := bi_end_io b;
     bi_size := bi_size b; bi_opf := bi_opf b; bi_private := bi_private b;
     bi_status := bi_status b; bi_cnt := bi_cnt b |}.

Definition with_disk (v : Z) (b : bio) : bio :=
  {| bi_sector := bi_sector b; bi_disk := v; bi_end_io := bi_end_io b;
     bi_size := bi_size b; bi_opf := bi_opf b; bi_private := bi_private b;
     bi_status := bi_status b; bi_cnt := bi_cnt b |}.

Definition with_end_io (v : bio_end_io_t) (b : bio) : bio :=
  {| bi_sector := bi_sector b; bi_disk := bi_disk b; bi_end_io := Some v;
     bi_size := bi_size b; bi_opf := bi_opf b; bi_private := bi_private b;
     bi_status := bi_status b; bi_cnt := bi_cnt b |}.

Definition with_size (v : Z) (b : bio) : bio :=
  {| bi_sector := bi_sector b; bi_disk := bi_disk b; bi_end_io := bi_end_io b;
     bi_size := v; bi_opf := bi_opf b; bi_private := bi_private b;
     bi_status := bi_status b; bi_cnt := bi_cnt b |}.

Definition with_opf (v : Z) (b : bio) : bio :=
  {| bi_sector := bi_sector b; bi_disk := bi_disk b; bi_end_io := bi_end_io b;
     bi_size := bi_size b; bi_opf := v; bi_private := bi_private b;
     bi_status := bi_status b; bi_cnt := bi_cnt b |}.

Definition with_private (v : option Z) (b : bio) : bio :=
  {| bi_sector := bi_sector b; bi_disk := bi_disk b; bi_end_io := bi_end_io b;
     bi_size := bi_size b; bi_opf := bi_opf b; bi_private := v;
     bi_status := bi_status b; bi_cnt := bi_cnt b |}.

Definition with_status (v : Z) (b : bio) : bio :=
  {| bi_sector := bi_sector b; bi_disk := bi_disk b; bi_end_io := bi_end_io b;
     bi_size := bi_size b; bi_opf := bi_opf b; bi_private := bi_private b;
     bi_status := v; bi_cnt := bi_cnt b |}.

Definition with_cnt (v : Z) (b : bio) : bio :=
  {| bi_sector := bi_sector b; bi_disk := bi_disk b; bi_end_io := bi_end_io b;
     bi_size := bi_size b; bi_opf := bi_opf b; bi_private := bi_private b;
     bi_status := bi_status b; bi_cnt := v |}.

Inductive task_state := TASK_RUNNING | TASK_UNINTERRUPTIBLE.

(** The collaborators the path calls; a fast-path transfer names its
    sector, a direct write its file position. *)
Inductive callee :=
| TryToFreeSwap
| FrontswapStore
| FrontswapLoad
| FrontswapLoadAsync
| DirectIO (pos : Z)
| Readpage
| BdevWritePage (sector : Z)
| BdevReadPage (sector : Z).

(** What the path does, in the order it does it. *)
Inductive event :=
| EvLock | EvUnlock
| EvSetWriteback | EvEndWriteback
| EvSetDirty | EvSetError | EvSetUptodate | EvClearUptodate | EvClearReclaim
| EvAlert | EvErrRatelimited
| EvSlotFreeNotify (dev offset : Z)
| EvSubmitBio (b : bio)
| EvBioGet | EvBioPut | EvClearPrivate
| EvGetTask (t : Z) | EvPutTask (t : Z) | EvWake (t : Z)
| EvSetState (s : task_state)
| EvBlkPoll | EvIoSchedule
| EvPsiEnter | EvPsiLeave
| EvAccumAdcSwapoutLatency (cycles : Z)
| EvCall (c : callee) (result : Z).

(** The page of the transfer, its request, the event counters and the
    log. *)
Record world := {
  pg         : page;
  rq         : bio;
  PSWPOUT    : Z;
  PSWPIN     : Z;
  THP_SWPOUT : Z;
  log        : list event
}.

Definition with_pg (p : page) (w : world) : world :=
  {| pg := p; rq := rq w; PSWPOUT := PSWPOUT w; PSWPIN := PSWPIN w;
     THP_SWPOUT := THP_SWPOUT w; log := log w |}.

Definition with_rq (b : bio) (w : world) : world :=
  {| pg := pg w; rq := b; PSWPOUT := PSWPOUT w; PSWPIN := PSWPIN w;
     THP_SWPOUT := THP_SWPOUT w; log := log w |}.

Definition with_log (l : list event) (w : world) : world :=
  {| pg := pg w; rq := rq w; PSWPOUT := PSWPOUT w; PSWPIN := PSWPIN w;
     THP_SWPOUT := THP_SWPOUT w; log := l |}.

(** ** The state monad *)

Definition M (A : Type) : Type := world -> A * world.

Definition ret {A : Type} (a : A) : M A := fun w => (a, w).

Definition bind {A B : Type} (m : M A) (k : A -> M B) : M B :=
  fun w => let '(a, w') := m w in k a w'.

Declare Scope swap_scope.
Delimit Scope swap_scope with swap.
Notation "x <- c ;; k" := (bind c (fun x => k))
  (at level 61, c at next level, right associativity) : swap_scope.
Notation "c ;; k" := (bind c (fun _ => k))
  (at level 61, right associativity) : swap_scope.
Local Open Scope swap_scope.

Definition exec {A : Type} (m : M A) (w : world) : world := snd (m w).
Definition eval {A : Type} (m : M A) (w : world) : A := fst (m w).

Definition emit (e : event) : M unit :=
  fun w => (tt, with_log (log w ++ [e]) w).

Definition on_page (f : page -> page) : M unit :=
  fun w => (tt, with_pg (f (pg w)) w).

Definition on_bio (f : bio -> bio) : M unit :=
  fun w => (tt, with_rq (f (rq w)) w).

Definition the_page : M page := fun w => (pg w, w).
Definition the_bio : M bio := fun w => (rq w, w).

Definition when (b : bool) (m : M unit) : M unit :=
  if b then m else ret tt.

(** ** Capabilities of the page cache, the block layer and accounting

    Modelled from the spec: the page-flag operations, the reference
    counting of requests and tasks, and the counters are defined outside
    mm/page_io.c.  Section 6 lists them as consumed capabilities
    ("lock/unlock, set/clear {uptodate, error, dirty, writeback}",
    "allocate request, attach pages, submit, poll", "increment named
    counters"); each one changes the one flag or field it names. *)

Definition unlock_page : M unit :=
  on_page (with_locked false) ;; emit EvUnlock.

Definition trylock_page : M bool :=
  p <- the_page ;;
  if PG_locked p then ret false
  else on_page (with_locked true) ;; emit EvLock ;; ret true.

Definition set_page_writeback : M unit :=
  on_page (with_writeback true) ;; emit EvSetWriteback.

Definition end_page_writeback : M unit :=
  on_page (with_writeback false) ;; emit EvEndWriteback.

Definition set_page_dirty : M unit :=
  on_page (with_dirty true) ;; emit EvSetDirty.

Definition SetPageDirty : M unit :=
  on_page (with_dirty true) ;; emit EvSetDirty.

Definition SetPageError : M unit :=
  on_page (with_error true) ;; emit EvSetError.

Definition SetPageUptodate : M unit :=
  on_page (with_uptodate true) ;; emit EvSetUptodate.

Definition ClearPageUptodate : M unit :=
  on_page (with_uptodate false) ;; emit EvClearUptodate.

Definition ClearPageReclaim : M unit :=
  on_page (with_reclaim false) ;; emit EvClearReclaim.

Definition pr_alert : M unit := emit EvAlert.
Definition pr_err_ratelimited : M unit := emit EvErrRatelimited.

Definition bio_get : M unit :=
  on_bio (fun b => with_cnt (bi_cnt b + 1) b) ;; emit EvBioGet.

Definition bio_put : M unit :=
  on_bio (fun b => with_cnt (bi_cnt b - 1) b) ;; emit EvBioPut.

Definition get_task_struct (t : Z) : M unit := emit (EvGetTask t).
Definition put_task_struct (t : Z) : M unit := emit (EvPutTask t).
Definition blk_wake_io_task (t : Z) : M unit := emit (EvWake t).
Definition set_current_state (s : task_state) : M unit := emit (EvSetState s).
Definition psi_memstall_enter : M unit := emit EvPsiEnter.
Definition psi_memstall_leave : M unit := emit EvPsiLeave.

(** [accum_adc_time_stat (ADC_SWAPOUT_LATENCY, cycles)] of
    linux/swap_stats.h, the profiling of the swap-out latency: the call
    is logged with the cycles it is given. *)
Definition accum_adc_time_stat (cycles : Z) : M unit :=
  emit (EvAccumAdcSwapoutLatency cycles).

Definition count_PSWPOUT (n : Z) : M unit :=
  fun w => (tt, {| pg := pg w; rq := rq w; PSWPOUT := PSWPOUT w + n;
                   PSWPIN := PSWPIN w; THP_SWPOUT := THP_SWPOUT w;
                   log := log w |}).

Definition count_PSWPIN : M unit :=
  fun w => (tt, {| pg := pg w; rq := rq w; PSWPOUT := PSWPOUT w;
                   PSWPIN := PSWPIN w + 1; THP_SWPOUT := THP_SWPOUT w;
                   log := log w |}).

Definition count_THP_SWPOUT : M unit :=
  fun w => (tt, {| pg := pg w; rq := rq w; PSWPOUT := PSWPOUT w;
                   PSWPIN := PSWPIN w; THP_SWPOUT := THP_SWPOUT w + 1;
                   log := log w |}).

(** ** External collaborators

    The front-end cache, the filesystem, the fast path of the device,
    the allocator, the slot accounting, the cycle counter and the device
    that completes requests are outside mm/page_io.c.  A value of [ext] fixes what they
    answer during one run; those that receive the page return the page
    as they leave it.  Every call is logged with its result. *)
Record ext := {
  current              : Z;
  swp_offset           : Z -> Z;
  __swap_count         : Z -> Z;
  bio_alloc            : bool;                   (* does bio_alloc succeed *)
  wbc_to_write_flags   : Z -> Z;
  try_to_free_swap     : page -> bool * page;
  frontswap_store      : page -> Z * page;
  frontswap_load       : page -> Z * page;
  frontswap_load_async : page -> Z * page;
  direct_IO            : Z -> Z;                 (* by file position *)
  readpage             : page -> Z * page;
  bdev_write_page      : Z -> page -> Z * page;  (* by sector *)
  bdev_read_page       : Z -> page -> Z * page;
  blk_poll             : nat -> bool;            (* answer of the k-th poll *)
  get_cycles_start     : Z;                      (* the cycle counter, read *)
  get_cycles_end       : Z;                      (* before and after *)
  (* the device completes the submitted request after so many rounds of
     waiting, with this status; [None]: it never does *)
  completion           : option (nat * Z)
}.

Definition has_flag (sis : swap_info_struct) (f : Z) : bool :=
  negb (Z.land (flags sis) f =? 0).

Definition call_page (c : callee) (f : page -> Z * page) : M Z :=
  fun w => let '(r, p) := f (pg w) in
           (r, with_log (log w ++ [EvCall c r]) (with_pg p w)).

Section PageIO.
Context (K : kconfig) (E : ext).

Definition hpage_nr_pages (p : page) : Z :=
  if PageTransHuge p then HPAGE_PMD_NR K else 1.

(** Modelled from the spec: [__page_file_index] of mm/swapfile.c is not
    part of mm/page_io.c; it is the capability "resolve assigned
    slot" of section 6, the offset part of the page's swap entry. *)
Definition __page_file_index (p : page) : Z :=
  swp_offset E (page_private p).

Definition lookup_extent (l : list swap_extent) (slot : Z) : Z :=
  match find (fun se => (start_page se <=? slot) &&
                        (slot <? start_page se + nr_pages se)) l with
  | Some se => start_block se + (slot - start_page se)
  | None => 0
  end.

(** Modelled from the spec: [map_swap_page] of mm/swapfile.c is not
    part of mm/page_io.c.  It is the Slot Locator of sections 2 and 4.2:
    it "resolves the device/file and block/byte offset using the extent
    table (or a direct formula for raw block devices)"; for a raw block
    device the block is the slot itself, "no extent lookup needed". *)
Definition map_swap_page (sis : swap_info_struct) (p : page) : Z * Z :=
  let slot := __page_file_index p in
  (if has_flag sis (SWP_BLKDEV K) then slot
   else lookup_extent (extents sis) slot,
   bdev sis).

(** [get_swap_bio]: [true] when the request was allocated; the request
    is then [rq] of the world. *)
Definition get_swap_bio (sis : swap_info_struct)
    (end_io : bio_end_io_t) : M bool :=
  if bio_alloc E then
    on_bio (fun _ => bio_fresh) ;;
    page <- the_page ;;
    let '(sector, dev) := map_swap_page sis page in
    on_bio (with_sector sector) ;;
    on_bio (with_disk dev) ;;
    on_bio (fun b =>
      with_sector (u64 (Z.shiftl (bi_sector b) (PAGE_SHIFT K - 9))) b) ;;
    on_bio (with_end_io end_io) ;;
    on_bio (with_size (PAGE_SIZE K * hpage_nr_pages page)) ;;
    ret true
  else ret false.

Definition end_swap_bio_write : M unit :=
  bio <- the_bio ;;
  when (negb (bi_status bio =? 0))
    (SetPageError ;;
     set_page_dirty ;;
     pr_alert ;;
     ClearPageReclaim) ;;
  end_page_writeback ;;
  bio_put.

Definition swap_slot_free_notify (sis : swap_info_struct) : M unit :=
  page <- the_page ;;
  if negb (PG_swapcache page) then ret tt
  else if negb (has_flag sis (SWP_BLKDEV K)) then ret tt
  else
    let entry := page_private page in
    when (fops_swap_slot_free_notify sis && (__swap_count E entry =? 1))
      (let offset := swp_offset E entry in
       SetPageDirty ;;
       emit (EvSlotFreeNotify (bdev sis) offset)).

Definition end_swap_bio_read (sis : swap_info_struct) : M unit :=
  bio <- the_bio ;;
  let waiter := bi_private bio in
  (if negb (bi_status bio =? 0) then
     SetPageError ;;
     ClearPageUptodate ;;
     pr_alert
   else
     SetPageUptodate ;;
     swap_slot_free_notify sis) ;;
  unlock_page ;;
  on_bio (with_private None) ;; emit EvClearPrivate ;;
  bio_put ;;
  match waiter with
  | Some t => blk_wake_io_task t ;; put_task_struct t
  | None => ret tt
  end.

Definition swap_page_sector (p : page) : Z :=
  u64 (Z.shiftl (__page_file_index p) (PAGE_SHIFT K - 9)).

Definition count_swpout_vm_event : M unit :=
  page <- the_page ;;
  when (PageTransHuge page) count_THP_SWPOUT ;;
  count_PSWPOUT (hpage_nr_pages page).

(** [page_file_offset(page)]: the byte position of the slot. *)
Definition page_file_offset (p : page) : Z :=
  u64 (Z.shiftl (__page_file_index p) (PAGE_SHIFT K)).

(** [submit_bio] hands the request to the device; the log keeps the
    request as submitted. *)
Definition submit_bio : M unit :=
  bio <- the_bio ;; emit (EvSubmitBio bio).

Definition __swap_writepage (sis : swap_info_struct) (wbc : Z)
    (end_write_func : bio_end_io_t) : M Z :=
  if has_flag sis (SWP_FS K) then
    page <- the_page ;;
    let ki_pos := page_file_offset page in
    set_page_writeback ;;
    unlock_page ;;
    let r := direct_IO E ki_pos in
    emit (EvCall (DirectIO ki_pos) r) ;;
    (* [int ret] takes the [ssize_t]; [ret == PAGE_SIZE] compares it as
       an [unsigned long] *)
    let ret0 := s32 r in
    r' <- (if u64 ret0 =? PAGE_SIZE K then
             count_PSWPOUT 1 ;; ret 0
           else
             set_page_dirty ;;
             ClearPageReclaim ;;
             pr_err_ratelimited ;;
             ret ret0) ;;
    end_page_writeback ;;
    ret r'
  else
    page <- the_page ;;
    let sector := swap_page_sector page in
    r <- call_page (BdevWritePage sector) (bdev_write_page E sector) ;;
    if r =? 0 then
      count_swpout_vm_event ;;
      ret 0
    else
      ok <- get_swap_bio sis end_write_func ;;
      if negb ok then
        set_page_dirty ;;
        unlock_page ;;
        ret (- ENOMEM K)
      else
        on_bio (with_opf (Z.lor (Z.lor (REQ_OP_WRITE K) (REQ_SWAP K))
                                (wbc_to_write_flags E wbc))) ;;
        count_swpout_vm_event ;;
        set_page_writeback ;;
        unlock_page ;;
        submit_bio ;;
        ret 0.

(** The two readings of the cycle counter, [get_cycles_start] and
    [get_cycles_end], are values of [ext]; their 64-bit difference goes
    to [accum_adc_time_stat]. *)
Definition swap_writepage (sis : swap_info_struct) (wbc : Z) : M Z :=
  freed <- call_page TryToFreeSwap
             (fun p => let '(b, p') := try_to_free_swap E p in
                       (if b then 1 else 0, p')) ;;
  if negb (freed =? 0) then
    unlock_page ;;
    ret 0
  else
    let pf_ts_stt := get_cycles_start E in
    r <- call_page FrontswapStore (frontswap_store E) ;;
    if r =? 0 then
      set_page_writeback ;;
      unlock_page ;;
      end_page_writeback ;;
      let pf_ts_end := get_cycles_end E in
      accum_adc_time_stat (u64 (pf_ts_end - pf_ts_stt)) ;;
      ret 0
    else
      __swap_writepage sis wbc EndSwapBioWrite.

(** The device calls the continuation of the request with a status. *)
Definition complete (sis : swap_info_struct) (status : Z) : M unit :=
  on_bio (with_status status) ;;
  bio <- the_bio ;;
  match bi_end_io bio with
  | Some EndSwapBioWrite => end_swap_bio_write
  | Some EndSwapBioRead => end_swap_bio_read sis
  | _ => ret tt
  end.

(** What the device has done by the [k]-th round of waiting. *)
Definition device_round (sis : swap_info_struct) (k : nat) : M unit :=
  match completion E with
  | Some (delay, status) =>
      if Nat.eqb delay k then complete sis status else ret tt
  | None => ret tt
  end.

Inductive waited := Left_loop | Still_waiting.

(** [while (synchronous) { ... }] of the read paths.  The completion
    handler runs in another context; its effects become visible to the
    loop at the start of a round.  [fuel] bounds the rounds looked at:
    [Still_waiting] says the caller is still inside the loop. *)
Fixpoint while_synchronous (sis : swap_info_struct) (synchronous : bool)
    (fuel k : nat) : M waited :=
  if negb synchronous then ret Left_loop
  else
    match fuel with
    | O => ret Still_waiting
    | S fuel' =>
        device_round sis k ;;
        set_current_state TASK_UNINTERRUPTIBLE ;;
        bio <- the_bio ;;
        match bi_private bio with
        | None => ret Left_loop
        | Some _ =>
            emit EvBlkPoll ;;
            when (negb (blk_poll E k)) (emit EvIoSchedule) ;;
            while_synchronous sis synchronous fuel' (S k)
        end
    end.

(** [swap_readpage] and [swap_readpage_async] have the same text from
    [psi_memstall_enter] to the end; it is written once here.  The
    result is [None] while the caller is still waiting in the loop. *)
Definition read_after_frontswap (sis : swap_info_struct)
    (synchronous : bool) (fuel : nat) : M (option Z) :=
  psi_memstall_enter ;;
  if has_flag sis (SWP_FS K) then
    r <- call_page Readpage (readpage E) ;;
    when (r =? 0) count_PSWPIN ;;
    psi_memstall_leave ;;
    ret (Some r)
  else
    page <- the_page ;;
    let sector := swap_page_sector page in
    r <- call_page (BdevReadPage sector) (bdev_read_page E sector) ;;
    if r =? 0 then
      locked <- trylock_page ;;
      when locked (swap_slot_free_notify sis ;; unlock_page) ;;
      count_PSWPIN ;;
      psi_memstall_leave ;;
      ret (Some r)
    else
      ok <- get_swap_bio sis EndSwapBioRead ;;
      if negb ok then
        unlock_page ;;
        psi_memstall_leave ;;
        ret (Some (- ENOMEM K))
      else
        on_bio (with_opf (REQ_OP_READ K)) ;;
        when synchronous
          (on_bio (fun b => with_opf (Z.lor (bi_opf b) (REQ_HIPRI K)) b) ;;
           get_task_struct (current E) ;;
           on_bio (with_private (Some (current E)))) ;;
        count_PSWPIN ;;
        bio_get ;;
        submit_bio ;;
        how <- while_synchronous sis synchronous fuel 0 ;;
        match how with
        | Still_waiting => ret None
        | Left_loop =>
            set_current_state TASK_RUNNING ;;
            bio_put ;;
            psi_memstall_leave ;;
            ret (Some 0)
        end.

Definition swap_readpage_async (sis : swap_info_struct) (fuel : nat)
    : M (option Z) :=
  let synchronous := false in
  r <- call_page FrontswapLoadAsync (frontswap_load_async E) ;;
  if r =? 0 then ret (Some 0)
  else read_after_frontswap sis synchronous fuel.

Definition swap_readpage (sis : swap_info_struct) (synchronous : bool)
    (fuel : nat) : M (option Z) :=
  r <- call_page FrontswapLoad (frontswap_load E) ;;
  if r =? 0 then ret (Some 0)
  else read_after_frontswap sis synchronous fuel.
End PageIO.

(** A file of [n] pages whose logical block [b] sits at physical block
    [base + b]. *)
Definition contiguous_file (K : kconfig) (blkbits base n : Z) : inode :=
  {| i_blkbits := blkbits;
     i_size := n * PAGE_SIZE K;
     bmap := fun b => base + b |}.

Definition fresh_store (mx : Z) : swap_info_struct :=
  {| flags := 0; max := mx; pages := 0; highest_bit := 0; extents := [];
     bdev := 0; fops_swap_slot_free_notify := false |}.

(** ** Concrete inputs *)

(** A locked, not uptodate swap-cache page holding slot [slot]. *)
Definition locked_page (slot : Z) : page :=
  {| PG_locked := true; PG_writeback := false; PG_uptodate := false;
     PG_error := false; PG_dirty := false; PG_reclaim := true;
     PG_swapcache := true; PageTransHuge := false; page_private := slot |}.

Definition world_of (p : page) : world :=
  {| pg := p; rq := bio_fresh; PSWPOUT := 0; PSWPIN := 0; THP_SWPOUT := 0;
     log := [] |}.

(** A raw block device without a fast path ([bdev_write_page] and
    [bdev_read_page] answer -EOPNOTSUPP and leave the page alone) and
    without a front-end cache. *)
Definition plain_device (alloc : bool) (done : option (nat * Z)) : ext :=
  {| current := 7;
     swp_offset := fun e => Z.land e (Z.ones 58);
     __swap_count := fun _ => 1;
     bio_alloc := alloc;
     wbc_to_write_flags := fun _ => 0;
     try_to_free_swap := fun p => (false, p);
     frontswap_store := fun p => (-1, p);
     frontswap_load := fun p => (-1, p);
     frontswap_load_async := fun p => (-1, p);
     direct_IO := fun _ => 0;
     readpage := fun p => (0, p);
     bdev_write_page := fun _ p => (-95, p);
     bdev_read_page := fun _ p => (-95, p);
     blk_poll := fun _ => false;
     get_cycles_start := 1000;
     get_cycles_end := 1600;
     completion := done |}.


Definition block_device_store : swap_info_struct :=
  {| flags := 64 + 3; max := 1024; pages := 1023; highest_bit := 1023;
     extents := [{| start_page := 0; nr_pages := 1024; start_block := 0 |}];
     bdev := 1; fops_swap_slot_free_notify := true |}.

(** ** Vocabulary of the statements *)


(** The world after a write on the generic request path whose request the
    device then completes with [status]. *)
Definition write_then_complete (K : kconfig) (E : ext)
    (sis : swap_info_struct) (wbc status : Z) (w : world) : world :=
  exec (complete K E sis status)
    (exec (__swap_writepage K E sis wbc EndSwapBioWrite) w).

(** What [n] rounds of the waiting loop log, from round [k] on: the task
    state is set, the queue is polled, and when the poll found nothing
    the caller suspends. *)
Fixpoint wait_rounds (E : ext) (k n : nat) : list event :=
  match n with
  | O => []
  | S n' =>
      [EvSetState TASK_UNINTERRUPTIBLE; EvBlkPoll] ++
      (if blk_poll E k then [] else [EvIoSchedule]) ++
      wait_rounds E (S k) n'
  end.

(** An event of a caller that does not wait: no uninterruptible state,
    no poll, no suspension, no task reference taken, and a submitted
    request carries no waiting task and no high-priority poll flag. *)
Definition no_wait_event (K : kconfig) (e : event) : Prop :=
  match e with
  | EvSetState TASK_UNINTERRUPTIBLE => False
  | EvBlkPoll => False
  | EvIoSchedule => False
  | EvGetTask _ => False
  | EvSubmitBio b => bi_private b = None /\ bi_opf b = REQ_OP_READ K
  | _ => True
  end.

(** What the caller logs after it has left the waiting loop. *)
Definition return_events : list event :=
  [EvSetState TASK_UNINTERRUPTIBLE; EvSetState TASK_RUNNING; EvBioPut;
   EvPsiLeave].

(** What a read on the generic request path does once the waiting loop
    has answered. *)
Definition after_loop (x : waited * world) : option Z * world :=
  match fst x with
  | Still_waiting => (None, snd x)
  | Left_loop =>
      (Some 0,
       exec (set_current_state TASK_RUNNING ;; bio_put ;; psi_memstall_leave)
         (snd x))
  end.

(** A computation that only adds to the log. *)
Definition appends {A : Type} (m : M A) : Prop :=
  forall w : world, exists evs, log (snd (m w)) = log w ++ evs.







(** The slots the extent list covers. *)
Definition slots_covered (sis : swap_info_struct) : Z :=
  fold_right (fun se acc => nr_pages se + acc) 0 (extents sis).


(** A file of two pages of four 1 KiB blocks each.  The first page sits
    at blocks 8 to 11; the second starts at the misaligned block 13 and
    its third block (block 6 of the file) is unmapped. *)
Definition file_with_late_hole : inode :=
  {| i_blkbits := 10;
     i_size := 2 * 4096;
     bmap := fun b => if b <? 4 then 8 + b
                      else if b =? 6 then 0 else 9 + b |}.

(** ** Further inputs and vocabulary *)

(** A store whose file goes through the filesystem (SWP_FS). *)
Definition filesystem_store : swap_info_struct :=
  {| flags := 256 + 3; max := 1024; pages := 1023; highest_bit := 1023;
     extents := [{| start_page := 0; nr_pages := 1024; start_block := 0 |}];
     bdev := 2; fops_swap_slot_free_notify := false |}.

(** A device behind a front-end cache that accepts every store. *)
Definition storing_cache : ext :=
  {| current := 7;
     swp_offset := fun e => Z.land e (Z.ones 58);
     __swap_count := fun _ => 1;
     bio_alloc := true;
     wbc_to_write_flags := fun _ => 0;
     try_to_free_swap := fun p => (false, p);
     frontswap_store := fun p => (0, p);
     frontswap_load := fun p => (-1, p);
     frontswap_load_async := fun p => (-1, p);
     direct_IO := fun _ => 0;
     readpage := fun p => (0, p);
     bdev_write_page := fun _ p => (-95, p);
     bdev_read_page := fun _ p => (-95, p);
     blk_poll := fun _ => false;
     get_cycles_start := 1000;
     get_cycles_end := 1600;
     completion := None |}.

(** A device whose fast path takes every read and has finished it (the
    page comes back unlocked and uptodate) when the call returns. *)
Definition fast_device : ext :=
  {| current := 7;
     swp_offset := fun e => Z.land e (Z.ones 58);
     __swap_count := fun _ => 1;
     bio_alloc := true;
     wbc_to_write_flags := fun _ => 0;
     try_to_free_swap := fun p => (false, p);
     frontswap_store := fun p => (-1, p);
     frontswap_load := fun p => (-1, p);
     frontswap_load_async := fun p => (-1, p);
     direct_IO := fun _ => 0;
     readpage := fun p => (0, p);
     bdev_write_page := fun _ p => (0, with_locked false p);
     bdev_read_page :=
       fun _ p => (0, with_locked false (with_uptodate true p));
     blk_poll := fun _ => false;
     get_cycles_start := 1000;
     get_cycles_end := 1600;
     completion := None |}.

(** The page was freed from the swap cache, or the front-end cache took
    it: the two exits of [swap_writepage] before [__swap_writepage]. *)
Definition write_short_circuit (E : ext) (p : page) : bool :=
  fst (try_to_free_swap E p) ||
  (fst (frontswap_store E (snd (try_to_free_swap E p))) =? 0).

(** The world after an asynchronous read whose request the device then
    completes with [status]. *)
Definition async_read_then_complete (K : kconfig) (E : ext)
    (sis : swap_info_struct) (status : Z) (w : world) : world :=
  exec (complete K E sis status)
    (exec (swap_readpage_async K E sis 0) w).

(** An event that takes, drops or wakes a task. *)
Definition task_event (e : event) : Prop :=
  match e with
  | EvGetTask _ => True
  | EvPutTask _ => True
  | EvWake _ => True
  | _ => False
  end.

(** Sums a weight over the events of a log. *)
Definition weigh (f : event -> Z) (l : list event) : Z :=
  fold_right (fun e acc => f e + acc) 0 l.

(** +1 for a task reference taken, -1 for one dropped. *)
Definition task_reference (e : event) : Z :=
  match e with
  | EvGetTask _ => 1
  | EvPutTask _ => -1
  | _ => 0
  end.

(** +1 for a memory-stall section opened, -1 for one closed. *)
Definition stall_section (e : event) : Z :=
  match e with
  | EvPsiEnter => 1
  | EvPsiLeave => -1
  | _ => 0
  end.

(** 1 for an event that starts a read transfer: a filesystem read
    that reported success, a fast-path read the device took, a request
    handed to the device. *)
Definition read_started (e : event) : Z :=
  match e with
  | EvCall Readpage r => if r =? 0 then 1 else 0
  | EvCall (BdevReadPage _) r => if r =? 0 then 1 else 0
  | EvSubmitBio _ => 1
  | _ => 0
  end.

(** A file shorter than one page; none of its blocks is mapped. *)
Definition short_file : inode :=
  {| i_blkbits := 12; i_size := 100; bmap := fun _ => 0 |}.


(** The variables of the scan of a contiguous file of page-sized block
    [B] onwards, on entry to the turn of slot [j] (1 or more): slots 0 to
    [j - 1] form one extent, and slot 0 took no part in lowest/highest. *)
Definition contiguous_scan_at (sis : swap_info_struct) (bpp B j : Z)
  : scan :=
  {| probe_block := j * bpp; page_no := j;
     lowest_block := if j =? 1 then u64 (-1) else B + 1;
     highest_block := if j =? 1 then 0 else B + j - 1;
     nr_extents := 1;
     store := set_extents sis
                [{| start_page := 0; nr_pages := j; start_block := B |}] |}.

(** ** filling_prefetch_pte

    The walk of the page table goes through the accessors of
    asm/pgtable.h, which are not part of mm/page_io.c: they are taken as
    arbitrary functions.  A pointer is a [Z], 0 for NULL;
    [pgd_present] and the like take the pointer to the entry they read.
    The function is the CONFIG_64BIT variant, where [pte_unmap] has
    nothing to undo. *)
Record vm_fault_prefetch := {
  start_address : Z;
  vma_vm_mm     : Z;   (* vmf_prefetch->vma->vm_mm *)
  ptes          : Z;
  prefetch_num  : Z
}.

Record pgtable := {
  pgd_offset     : Z -> Z -> Z;
  pgd_present    : Z -> bool;
  p4d_offset     : Z -> Z -> Z;
  p4d_present    : Z -> bool;
  pud_offset     : Z -> Z -> Z;
  pud_present    : Z -> bool;
  pmd_offset     : Z -> Z -> Z;
  pmd_present    : Z -> bool;
  pte_offset_map : Z -> Z -> Z
}.

Definition filling_prefetch_pte (T : pgtable) (vmf_prefetch : vm_fault_prefetch)
  : Z * vm_fault_prefetch :=
  let user_virt_addr := start_address vmf_prefetch in
  let mm := vma_vm_mm vmf_prefetch in
  let pgd := pgd_offset T mm user_virt_addr in
  if negb (pgd_present T pgd) then (-1, vmf_prefetch) else
  let p4d := p4d_offset T pgd user_virt_addr in
  if negb (p4d_present T p4d) then (-1, vmf_prefetch) else
  let pud := pud_offset T p4d user_virt_addr in
  if negb (pud_present T pud) then (-1, vmf_prefetch) else
  let pmd := pmd_offset T pud user_virt_addr in
  if negb (pmd_present T pmd) then (-1, vmf_prefetch) else
  let ptep := pte_offset_map T pmd user_virt_addr in
  if ptep =? 0 then (-1, vmf_prefetch) else
  (1, {| start_address := start_address vmf_prefetch;
         vma_vm_mm := vma_vm_mm vmf_prefetch;
         ptes := ptep;
         prefetch_num := prefetch_num vmf_prefetch |}).

(** The condition under which the walk reaches a page-table entry. *)
Definition walk_reaches_pte (T : pgtable) (v : vm_fault_prefetch) : bool :=
  let a := start_address v in
  let pgd := pgd_offset T (vma_vm_mm v) a in
  let p4d := p4d_offset T pgd a in
  let pud := pud_offset T p4d a in
  let pmd := pmd_offset T pud a in
  pgd_present T pgd && p4d_present T p4d && pud_present T pud &&
  pmd_present T pmd && negb (pte_offset_map T pmd a =? 0).

(** A page table of which every level is present: each level adds its
    index to the pointer it is given. *)
Definition full_table : pgtable :=
  {| pgd_offset := fun mm a => mm + Z.shiftr a 39;
     pgd_present := fun _ => true;
     p4d_offset := fun pgd _ => pgd;
     p4d_present := fun _ => true;
     pud_offset := fun p4d a => p4d + Z.shiftr a 30;
     pud_present := fun _ => true;
     pmd_offset := fun pud a => pud + Z.shiftr a 21;
     pmd_present := fun _ => true;
     pte_offset_map := fun pmd a => pmd + Z.shiftr a 12 |}.

(** ** Latency profiling of prefetch hints (UFFD_PREFETCH_LATENCY_PROFILING)

    The profiled address range and the length of the array are macros of
    a header that is not part of mm/page_io.c; they are taken as
    parameters.  The array [uffd_prefetch_lantecy] is a map from its
    indices to 64-bit values; [size_t] and [uint64_t] are 64 bits wide.
    A call that runs into BUG_ON does not return: it gives [None].  The
    state also holds the lines [pr_warn] has printed, as the address and
    the latency of each. *)
Record profiling := {
  JVM_HEAP_START_ADDR      : Z;
  JVM_HEAP_END_ADDR        : Z;
  UFFD_PROFILING_ARRAY_LEN : Z
}.

Record latency_state := {
  uffd_prefetch_lantecy : Z -> Z;
  pr_warn               : list (Z * Z)
}.

Definition PAGE_MASK (K : kconfig) : Z := u64 (Z.lnot (PAGE_SIZE K - 1)).

Definition array_store (a : Z -> Z) (i v : Z) : Z -> Z :=
  fun j => if j =? i then v else a j.

Section Latency.
Context (K : kconfig) (P : profiling).

Definition reset_uffd_prefetch_latency_array (st : latency_state)
  : latency_state :=
  {| uffd_prefetch_lantecy := fun i =>
       if (0 <=? i) && (i <? UFFD_PROFILING_ARRAY_LEN P) then 0
       else uffd_prefetch_lantecy st i;
     pr_warn := pr_warn st |}.

(** [((fault_vaddr & PAGE_MASK) - JVM_HEAP_START_ADDR) >> PAGE_SHIFT] *)
Definition latency_page_offset (fault_vaddr : Z) : Z :=
  Z.shiftr (u64 (Z.land fault_vaddr (PAGE_MASK K) - JVM_HEAP_START_ADDR P))
    (PAGE_SHIFT K).


Definition uffd_prefetch_received (fault_vaddr time : Z) (st : latency_state)
  : option latency_state :=
  if (fault_vaddr <? JVM_HEAP_START_ADDR P) ||
     (fault_vaddr >? JVM_HEAP_END_ADDR P)
  then None
  else
    let page_offset := latency_page_offset fault_vaddr in
    if uffd_prefetch_lantecy st page_offset =? 0 then None
    else
      let latency := u64 (time - uffd_prefetch_lantecy st page_offset) in
      Some {| uffd_prefetch_lantecy :=
                array_store (uffd_prefetch_lantecy st) page_offset latency;
              pr_warn := pr_warn st ++ [(fault_vaddr, latency)] |}.
End Latency.

(** A profiled range of 16 pages from 4 GiB, and an array of 16 entries
    that holds 9 everywhere. *)
Definition small_heap : profiling :=
  {| JVM_HEAP_START_ADDR := 2 ^ 32;
     JVM_HEAP_END_ADDR := 2 ^ 32 + 16 * 4096 - 1;
     UFFD_PROFILING_ARRAY_LEN := 16 |}.

Definition stale_array : latency_state :=
  {| uffd_prefetch_lantecy := fun _ => 9; pr_warn := [] |}.

(** A prefetch request for an address of [small_heap]. *)
Definition heap_request : vm_fault_prefetch :=
  {| start_address := 2 ^ 32 + 4096; vma_vm_mm := 1000; ptes := 0;
     prefetch_num := 1 |}.


(** An [add_swap_extent] that has memory for [room] extents: once the
    list holds that many it answers -ENOMEM (-12) and leaves the store
    alone. *)
Definition add_swap_extent_nomem (room : Z)
  : swap_info_struct -> Z -> Z -> Z -> Z * swap_info_struct :=
  fun st pg n blk =>
    if Z.of_nat (length (extents st)) <? room
    then add_swap_extent st pg n blk
    else (-12, st).





(** A filesystem whose [direct_IO] reports 2^32 + 4096 bytes written:
    kept in an [int], the result is 4096. *)
Definition wide_filesystem : ext :=
  {| current := 7;
     swp_offset := fun e => Z.land e (Z.ones 58);
     __swap_count := fun _ => 1;
     bio_alloc := true;
     wbc_to_write_flags := fun _ => 0;
     try_to_free_swap := fun p => (false, p);
     frontswap_store := fun p => (-1, p);
     frontswap_load := fun p => (-1, p);
     frontswap_load_async := fun p => (-1, p);
     direct_IO := fun _ => 2 ^ 32 + 4096;
     readpage := fun p => (0, p);
     bdev_write_page := fun _ p => (-95, p);
     bdev_read_page := fun _ p => (-95, p);
     blk_poll := fun _ => false;
     get_cycles_start := 1000;
     get_cycles_end := 1600;
     completion := None |}.

(** * Theorems *)

(** ** Proof tools *)

Ltac unfold_io :=
  unfold exec, eval, swap_readpage, swap_readpage_async,
    read_after_frontswap, swap_writepage, __swap_writepage, complete,
    end_swap_bio_read, end_swap_bio_write, swap_slot_free_notify,
    get_swap_bio, count_swpout_vm_event, submit_bio, call_page,
    unlock_page, trylock_page, set_page_writeback, end_page_writeback,
    set_page_dirty, SetPageDirty, SetPageError, SetPageUptodate,
    ClearPageUptodate, ClearPageReclaim, pr_alert, pr_err_ratelimited,
    bio_get, bio_put, get_task_struct, put_task_struct, blk_wake_io_task,
    set_current_state, psi_memstall_enter, psi_memstall_leave,
    count_PSWPOUT, count_PSWPIN, count_THP_SWPOUT, accum_adc_time_stat, when,
    bind, ret, emit,
    on_page, on_bio, the_page, the_bio.

Tactic Notation "unfold_io" "in" hyp(H) :=
  unfold exec, eval, swap_readpage, swap_readpage_async,
    read_after_frontswap, swap_writepage, __swap_writepage, complete,
    end_swap_bio_read, end_swap_bio_write, swap_slot_free_notify,
    get_swap_bio, count_swpout_vm_event, submit_bio, call_page,
    unlock_page, trylock_page, set_page_writeback, end_page_writeback,
    set_page_dirty, SetPageDirty, SetPageError, SetPageUptodate,
    ClearPageUptodate, ClearPageReclaim, pr_alert, pr_err_ratelimited,
    bio_get, bio_put, get_task_struct, put_task_struct, blk_wake_io_task,
    set_current_state, psi_memstall_enter, psi_memstall_leave,
    count_PSWPOUT, count_PSWPIN, count_THP_SWPOUT, accum_adc_time_stat, when,
    bind, ret, emit,
    on_page, on_bio, the_page, the_bio in H.

Ltac fix_log := repeat rewrite <- app_assoc; cbn [app].

(** ** Slot-free notification *)

(** C9. [swap_slot_free_notify] leaves the world as it is (no page flag
    changes, no device notification) unless the page is in the swap
    cache, the store has SWP_BLKDEV, the device has the
    swap_slot_free_notify hook and the swap count of the slot is exactly
    1; when all four hold it sets the page dirty and then notifies the
    device of the slot, in that order, and changes nothing else. *)
Theorem swap_slot_free_notify_guarded (K : kconfig) (E : ext)
    (sis : swap_info_struct) (w : world) :
  exec (swap_slot_free_notify K E sis) w =
  if PG_swapcache (pg w) && has_flag sis (SWP_BLKDEV K) &&
     fops_swap_slot_free_notify sis &&
     (__swap_count E (page_private (pg w)) =? 1)
  then with_log (log w ++ [EvSetDirty;
                           EvSlotFreeNotify (bdev sis)
                             (swp_offset E (page_private (pg w)))])
         (with_pg (with_dirty true (pg w)) w)
  else w.
Proof.
  unfold_io. destruct w as [p b o i t l]; cbn.
  destruct (PG_swapcache p); cbn; [|reflexivity].
  destruct (has_flag sis (SWP_BLKDEV K)); cbn; [|reflexivity].
  destruct (fops_swap_slot_free_notify sis); cbn; [|reflexivity].
  destruct (__swap_count E (page_private p) =? 1); cbn; [|reflexivity].
  unfold with_log, with_pg; cbn. fix_log. reflexivity.
Qed.

(** ** Completion handlers *)


(** ** Write path *)

(** C6. When the store is not filesystem-backed, the fast path declines
    and the request cannot be allocated, [__swap_writepage] returns
    -ENOMEM; the page is as the declined fast path left it except that it
    is dirty and unlocked; writeback is not set, nothing is submitted,
    the request and the counters are untouched. *)
Theorem swap_writepage_alloc_failure (K : kconfig) (E : ext)
    (sis : swap_info_struct) (wbc : Z) (end_io : bio_end_io_t) (w : world)
    (Hfs : has_flag sis (SWP_FS K) = false)
    (Hfast : fst (bdev_write_page E (swap_page_sector K E (pg w)) (pg w)) <> 0)
    (Halloc : bio_alloc E = false) :
  let sector := swap_page_sector K E (pg w) in
  let r := fst (bdev_write_page E sector (pg w)) in
  let p1 := snd (bdev_write_page E sector (pg w)) in
  let w' := exec (__swap_writepage K E sis wbc end_io) w in
  eval (__swap_writepage K E sis wbc end_io) w = - ENOMEM K /\
  pg w' = with_locked false (with_dirty true p1) /\
  PG_dirty (pg w') = true /\
  PG_locked (pg w') = false /\
  PG_writeback (pg w') = PG_writeback p1 /\
  log w' = log w ++ [EvCall (BdevWritePage sector) r; EvSetDirty; EvUnlock] /\
  rq w' = rq w /\
  PSWPOUT w' = PSWPOUT w /\ THP_SWPOUT w' = THP_SWPOUT w /\
  PSWPIN w' = PSWPIN w.
Proof.
  unfold_io. rewrite Hfs, Halloc. destruct w as [p b o i t l]; cbn in *.
  destruct (bdev_write_page E (swap_page_sector K E p) p) as [r p1]; cbn in *.
  apply Z.eqb_neq in Hfast. rewrite Hfast. cbn. fix_log.
  repeat split; reflexivity.
Qed.

Lemma swap_writepage_alloc_failure_witness :
  let E := plain_device false None in
  let w := world_of (locked_page 5) in
  eval (__swap_writepage linux_x86_64 E block_device_store 0
          EndSwapBioWrite) w = -12 /\
  PG_dirty (pg (exec (__swap_writepage linux_x86_64 E block_device_store 0
                        EndSwapBioWrite) w)) = true.
Proof.
  intros E w.
  pose proof (swap_writepage_alloc_failure linux_x86_64 E block_device_store
                0 EndSwapBioWrite w) as H.
  destruct H as (H1 & _ & H3 & _).
  - reflexivity.
  - vm_compute. discriminate.
  - reflexivity.
  - split; [exact H1 | exact H3].
Defined.

(** C3, as the code has it.  On the generic request path a write whose
    request completes with a failure leaves the page with the error flag
    set, dirty, unlocked, not under writeback and without the reclaim
    flag; the written-pages counter was incremented by the page count of
    the page when the request was submitted and the failed completion
    does not take that back. *)
Theorem swap_write_failure_completion (K : kconfig) (E : ext)
    (sis : swap_info_struct) (wbc status : Z) (w : world)
    (Hfs : has_flag sis (SWP_FS K) = false)
    (Hfast : fst (bdev_write_page E (swap_page_sector K E (pg w)) (pg w)) <> 0)
    (Halloc : bio_alloc E = true)
    (Hfail : status <> 0) :
  let p1 := snd (bdev_write_page E (swap_page_sector K E (pg w)) (pg w)) in
  let w' := write_then_complete K E sis wbc status w in
  eval (__swap_writepage K E sis wbc EndSwapBioWrite) w = 0 /\
  PG_error (pg w') = true /\
  PG_dirty (pg w') = true /\
  PG_locked (pg w') = false /\
  PG_writeback (pg w') = false /\
  PG_reclaim (pg w') = false /\
  PSWPOUT w' = PSWPOUT w + hpage_nr_pages K p1 /\
  PSWPOUT w' = PSWPOUT (exec (__swap_writepage K E sis wbc EndSwapBioWrite) w).
Proof.
  unfold write_then_complete. unfold_io. rewrite Hfs, Halloc.
  destruct w as [p b o i t l]; cbn in *.
  destruct (bdev_write_page E (swap_page_sector K E p) p) as [r p1]; cbn in *.
  apply Z.eqb_neq in Hfast. rewrite Hfast. cbn.
  apply Z.eqb_neq in Hfail.
  unfold hpage_nr_pages.
  destruct (PageTransHuge p1); cbn; rewrite Hfail; cbn;
    repeat split; reflexivity.
Qed.

Lemma swap_write_failure_completion_witness :
  let E := plain_device true None in
  let w' := write_then_complete linux_x86_64 E block_device_store 0 10
              (world_of (locked_page 5)) in
  PG_error (pg w') = true /\ PG_dirty (pg w') = true /\
  PG_locked (pg w') = false /\ PG_writeback (pg w') = false.
Proof.
  intros E w'.
  pose proof (swap_write_failure_completion linux_x86_64 E block_device_store
                0 10 (world_of (locked_page 5))) as H.
  destruct H as (_ & H2 & H3 & H4 & H5 & _).
  - reflexivity.
  - vm_compute. discriminate.
  - reflexivity.
  - lia.
  - repeat split; assumption.
Defined.

(** C3, as stated, fails: page P holds slot 5 of a block-device store,
    the fast path declines, the request is built and the device fails
    it.  P ends with the error flag, dirty, unlocked and not under
    writeback, but the written-pages counter went from 0 to 1. *)
Lemma swap_write_failure_still_counted :
  let E := plain_device true None in
  let w := world_of (locked_page 5) in
  let w' := write_then_complete linux_x86_64 E block_device_store 0 10 w in
  has_flag block_device_store (SWP_FS linux_x86_64) = false /\
  has_flag block_device_store (SWP_BLKDEV linux_x86_64) = true /\
  PG_dirty (pg w') = true /\ PG_locked (pg w') = false /\
  PG_writeback (pg w') = false /\
  PSWPOUT w = 0 /\ PSWPOUT w' = 1 /\ PSWPOUT w' <> PSWPOUT w.
Proof. vm_compute. repeat split; try reflexivity. discriminate. Qed.

(** ** Read paths *)

Lemma while_not_synchronous (K : kconfig) (E : ext)
    (sis : swap_info_struct) (fuel k : nat) :
  while_synchronous K E sis false fuel k = ret Left_loop.
Proof. destruct fuel; reflexivity. Qed.

Lemma Forall_snoc {A : Type} (P : A -> Prop) (l : list A) (a : A) :
  Forall P l -> P a -> Forall P (l ++ [a]).
Proof. intros Hl Ha. apply Forall_app. split; [exact Hl | constructor; auto]. Qed.

Ltac quiet_log :=
  eexists; split; [fix_log; reflexivity |];
  repeat (constructor; try exact I; try (split; reflexivity)).

(** C10. [swap_readpage_async] never waits: whatever the collaborators
    answer it returns, the number of waiting rounds looked at makes no
    difference, and nothing it logs is an event of a waiting caller (no
    uninterruptible state, no poll, no suspension, no task reference);
    the request it submits on the generic path has no waiting task
    attached and is a plain read. *)
Theorem swap_readpage_async_never_waits (K : kconfig) (E : ext)
    (sis : swap_info_struct) (fuel : nat) (w : world) :
  let w' := exec (swap_readpage_async K E sis fuel) w in
  eval (swap_readpage_async K E sis fuel) w <> None /\
  swap_readpage_async K E sis fuel w = swap_readpage_async K E sis 0 w /\
  (rq w' = rq w \/ bi_private (rq w') = None) /\
  exists evs, log w' = log w ++ evs /\ Forall (no_wait_event K) evs.
Proof.
  unfold swap_readpage_async, read_after_frontswap.
  rewrite !while_not_synchronous.
  unfold_io. destruct w as [p b o i t l]; cbn.
  destruct (frontswap_load_async E p) as [r0 p0]; cbn.
  destruct (r0 =? 0); cbn.
  { repeat split; try discriminate; auto. quiet_log. }
  destruct (has_flag sis (SWP_FS K)); cbn.
  { destruct (readpage E p0) as [r1 p1]; cbn.
    destruct (r1 =? 0); cbn; (repeat split; try discriminate; auto);
      quiet_log. }
  destruct (bdev_read_page E (swap_page_sector K E p0) p0) as [r1 p1]; cbn.
  destruct (r1 =? 0); cbn.
  { destruct (PG_locked p1); cbn.
    - repeat split; try discriminate; auto. quiet_log.
    - destruct (PG_swapcache p1); cbn;
        [destruct (has_flag sis (SWP_BLKDEV K)); cbn;
         [destruct (fops_swap_slot_free_notify sis); cbn;
          [destruct (__swap_count E (page_private p1) =? 1); cbn|]|]|];
        (repeat split; try discriminate; auto); quiet_log. }
  destruct (bio_alloc E); cbn.
  - unfold map_swap_page; cbn.
    repeat split; try discriminate; auto. quiet_log.
  - repeat split; try discriminate; auto. quiet_log.
Qed.

Lemma with_log_same (w : world) : with_log (log w ++ []) w = w.
Proof. destruct w; unfold with_log; cbn. now rewrite app_nil_r. Qed.

(** The waiting loop of a blocking read whose request the device
    completes after [k + n] rounds: with more than [n] rounds looked at
    the loop is left right after the completion, with fewer the caller
    is still in it and has only polled. *)
Lemma while_synchronous_completes (K : kconfig) (E : ext)
    (sis : swap_info_struct) (d : nat) (st : Z) (t : Z)
    (Hdone : completion E = Some (d, st)) :
  forall (n k fuel : nat) (w : world),
    d = (k + n)%nat ->
    bi_private (rq w) = Some t ->
    bi_end_io (rq w) = Some EndSwapBioRead ->
    while_synchronous K E sis true fuel k w =
    if (n <? fuel)%nat
    then (Left_loop,
          exec (set_current_state TASK_UNINTERRUPTIBLE)
            (exec (complete K E sis st)
               (with_log (log w ++ wait_rounds E k n) w)))
    else (Still_waiting, with_log (log w ++ wait_rounds E k fuel) w).
Proof.
  induction n as [|n IH]; intros k fuel w Hd Hp He.
  - destruct fuel as [|fuel]; cbn [while_synchronous negb wait_rounds Nat.ltb Nat.leb].
    + unfold ret. now rewrite with_log_same.
    + rewrite with_log_same.
      unfold device_round. rewrite Hdone.
      replace (Nat.eqb d k) with true
        by (symmetry; apply Nat.eqb_eq; lia).
      unfold_io. destruct w as [p b o i tt' l]; cbn in *.
      rewrite He. cbn.
      destruct (bi_status b =? 0); destruct (st =? 0); cbn;
        try (destruct (PG_swapcache p); cbn;
             [destruct (has_flag sis (SWP_BLKDEV K)); cbn;
              [destruct (fops_swap_slot_free_notify sis); cbn;
               [destruct (__swap_count E (page_private p) =? 1); cbn|]|]|]);
        rewrite Hp; cbn; reflexivity.
  - destruct fuel as [|fuel]; cbn [while_synchronous negb].
    + cbn. unfold ret. now rewrite with_log_same.
    + unfold device_round. rewrite Hdone.
      replace (Nat.eqb d k) with false
        by (symmetry; apply Nat.eqb_neq; lia).
      unfold bind at 1. unfold ret at 1.
      unfold bind at 1. unfold set_current_state at 1. unfold emit at 1.
      unfold bind at 1. unfold the_bio at 1.
      cbn [rq with_log]. rewrite Hp.
      unfold bind at 1. unfold emit at 1.
      unfold bind at 1.
      assert (Hstep : forall w0 : world,
                 when (negb (blk_poll E k)) (emit EvIoSchedule) w0 =
                 (tt, with_log (log w0 ++
                                  (if blk_poll E k then [] else [EvIoSchedule]))
                        w0)).
      { intros w0. destruct (blk_poll E k); cbn.
        - unfold ret. now rewrite with_log_same.
        - reflexivity. }
      rewrite Hstep.
      rewrite (IH (S k) fuel); [| lia | exact Hp | exact He].
      change (S n <? S fuel)%nat with (n <? fuel)%nat.
      destruct w as [p b o i tt' l]; cbn [with_log log pg rq PSWPOUT PSWPIN
                                            THP_SWPOUT wait_rounds].
      fix_log. reflexivity.
Qed.

(** Without a completion the caller never leaves the loop. *)
Lemma while_synchronous_never (K : kconfig) (E : ext)
    (sis : swap_info_struct) (t : Z) (Hnever : completion E = None) :
  forall (fuel k : nat) (w : world),
    bi_private (rq w) = Some t ->
    while_synchronous K E sis true fuel k w =
    (Still_waiting, with_log (log w ++ wait_rounds E k fuel) w).
Proof.
  induction fuel as [|fuel IH]; intros k w Hp; cbn [while_synchronous negb].
  - cbn. unfold ret. now rewrite with_log_same.
  - unfold device_round. rewrite Hnever.
    unfold bind at 1. unfold ret at 1.
    unfold bind at 1. unfold set_current_state at 1. unfold emit at 1.
    unfold bind at 1. unfold the_bio at 1.
    cbn [rq with_log]. rewrite Hp.
    unfold bind at 1. unfold emit at 1.
    unfold bind at 1.
    destruct (blk_poll E k) eqn:Hpoll; cbn [negb when];
      unfold ret at 1 || unfold emit at 1;
      (rewrite IH by exact Hp);
      destruct w as [p b o i tt' l]; cbn [with_log log pg rq PSWPOUT PSWPIN
                                            THP_SWPOUT wait_rounds];
      rewrite Hpoll; fix_log; reflexivity.
Qed.

(** A blocking read on the generic request path up to the submission:
    the request carries the caller as waiting task and the read handler,
    and the page is as the declined fast path left it. *)
Lemma blocking_read_submits (K : kconfig) (E : ext)
    (sis : swap_info_struct) (fuel : nat) (w : world)
    (Hmiss : fst (frontswap_load E (pg w)) <> 0)
    (Hfs : has_flag sis (SWP_FS K) = false)
    (Hfast : let p1 := snd (frontswap_load E (pg w)) in
             fst (bdev_read_page E (swap_page_sector K E p1) p1) <> 0)
    (Halloc : bio_alloc E = true) :
  exists (ws : world) (pre : list event),
    swap_readpage K E sis true fuel w =
      after_loop (while_synchronous K E sis true fuel 0 ws) /\
    log ws = log w ++ pre ++ [EvSubmitBio (rq ws)] /\
    bi_private (rq ws) = Some (current E) /\
    bi_end_io (rq ws) = Some EndSwapBioRead.
Proof.
  unfold swap_readpage, read_after_frontswap, call_page.
  unfold bind at 1.
  destruct w as [p b o i t l]; cbn [pg log] in *.
  destruct (frontswap_load E p) as [r0 p0]; cbn [fst snd] in *.
  apply Z.eqb_neq in Hmiss. rewrite Hmiss.
  unfold bind at 1.
  unfold psi_memstall_enter at 1, emit at 1.
  rewrite Hfs.
  unfold bind at 1. unfold the_page at 1.
  cbn [pg with_pg with_log].
  unfold bind at 1. cbn [pg with_pg with_log log].
  destruct (bdev_read_page E (swap_page_sector K E p0) p0) as [r1 p1];
    cbn [fst snd] in *.
  apply Z.eqb_neq in Hfast. rewrite Hfast.
  unfold bind at 1. unfold get_swap_bio.
  rewrite Halloc. unfold map_swap_page.
  match goal with
  | |- context [while_synchronous K E sis true fuel 0] =>
      remember (while_synchronous K E sis true fuel 0) as loop eqn:Hloop
  end.
  unfold after_loop. unfold_io. cbn.
  match goal with
  | |- context [loop ?ws] =>
      exists ws,
        [EvCall FrontswapLoad r0; EvPsiEnter;
         EvCall (BdevReadPage (swap_page_sector K E p0)) r1;
         EvGetTask (current E); EvBioGet]
  end.
  split.
  - match goal with
    | |- context [loop ?ws] => destruct (loop ws) as [[|] w1]
    end; reflexivity.
  - cbn. fix_log. repeat split; reflexivity.
Qed.

(** The read handler run by the device on a request that carries a
    waiting task. *)
Lemma complete_read_effect (K : kconfig) (E : ext)
    (sis : swap_info_struct) (st t : Z) (w0 : world)
    (Hend : bi_end_io (rq w0) = Some EndSwapBioRead)
    (Hpriv : bi_private (rq w0) = Some t) :
  let w1 := exec (complete K E sis st) w0 in
  bi_private (rq w1) = None /\
  PG_locked (pg w1) = false /\
  (if st =? 0 then PG_uptodate (pg w1) = true
   else PG_error (pg w1) = true /\ PG_uptodate (pg w1) = false) /\
  exists post, log w1 = log w0 ++ post /\
               In EvClearPrivate post /\ In (EvWake t) post.
Proof.
  destruct w0 as [p b o i tt' l]. destruct b as [s0 d0 e0 z0 f0 v0 u0 c0].
  cbn in Hend, Hpriv. subst e0 v0.
  unfold_io. cbn.
  destruct (st =? 0); cbn;
    try (destruct (PG_swapcache p); cbn;
         [destruct (has_flag sis (SWP_BLKDEV K)); cbn;
          [destruct (fops_swap_slot_free_notify sis); cbn;
           [destruct (__swap_count E (page_private p) =? 1); cbn|]|]|]);
    (repeat split; try reflexivity);
    fix_log; eexists; (split; [reflexivity |]);
    split; cbn; repeat (first [left; reflexivity | right]).
Qed.

(** Leaving the loop and returning touches neither the page nor the
    waiting-task reference. *)
Lemma return_effect (w1 : world) :
  let w2 := exec (set_current_state TASK_RUNNING ;; bio_put ;;
                  psi_memstall_leave)
              (exec (set_current_state TASK_UNINTERRUPTIBLE) w1) in
  pg w2 = pg w1 /\
  bi_private (rq w2) = bi_private (rq w1) /\
  log w2 = log w1 ++ return_events.
Proof.
  destruct w1 as [p b o i t l]. unfold_io. cbn. fix_log.
  repeat split; reflexivity.
Qed.

(** C5. A blocking read on the generic request path (front-end cache
    miss, store not filesystem-backed, fast path declined, request
    allocated).  If the device completes the request after [d] rounds of
    waiting, the call has returned within [fuel] rounds exactly when
    [d < fuel]; it then returns 0 with the waiting-task reference cleared,
    the page unlocked and its error/uptodate flags settled by the
    handler, and its log shows the submission, [d] rounds of polling or
    suspending, the handler clearing the reference, and only then the
    return.  Until then, and for ever when the device never completes,
    the caller is still waiting with the reference attached. *)
Theorem blocking_read_returns_after_completion (K : kconfig) (E : ext)
    (sis : swap_info_struct) (fuel : nat) (w : world)
    (Hmiss : fst (frontswap_load E (pg w)) <> 0)
    (Hfs : has_flag sis (SWP_FS K) = false)
    (Hfast : let p1 := snd (frontswap_load E (pg w)) in
             fst (bdev_read_page E (swap_page_sector K E p1) p1) <> 0)
    (Halloc : bio_alloc E = true) :
  let r := eval (swap_readpage K E sis true fuel) w in
  let w' := exec (swap_readpage K E sis true fuel) w in
  match completion E with
  | Some (d, st) =>
      if (d <? fuel)%nat then
        r = Some 0 /\
        bi_private (rq w') = None /\
        PG_locked (pg w') = false /\
        (if st =? 0 then PG_uptodate (pg w') = true
         else PG_error (pg w') = true /\ PG_uptodate (pg w') = false) /\
        exists pre b post,
          log w' = log w ++ (pre ++ [EvSubmitBio b]) ++ wait_rounds E 0 d ++
                   post ++ return_events /\
          bi_private b = Some (current E) /\
          bi_end_io b = Some EndSwapBioRead /\
          In EvClearPrivate post /\ In (EvWake (current E)) post
      else
        r = None /\ bi_private (rq w') = Some (current E) /\
        exists pre b,
          log w' = log w ++ (pre ++ [EvSubmitBio b]) ++ wait_rounds E 0 fuel
  | None =>
      r = None /\ bi_private (rq w') = Some (current E) /\
      exists pre b,
        log w' = log w ++ (pre ++ [EvSubmitBio b]) ++ wait_rounds E 0 fuel
  end.
Proof.
  intros r w'. subst r w'. unfold exec, eval.
  destruct (blocking_read_submits K E sis fuel w Hmiss Hfs Hfast Halloc)
    as (ws & pre & Hrun & Hlog & Hpriv & Hend).
  rewrite Hrun. clear Hrun.
  destruct (completion E) as [[d st]|] eqn:Hdone.
  - rewrite (while_synchronous_completes K E sis d st (current E) Hdone
               d 0%nat fuel ws eq_refl Hpriv Hend).
    destruct (d <? fuel)%nat; unfold after_loop; cbn [fst snd].
    + set (w0 := with_log (log ws ++ wait_rounds E 0 d) ws).
      assert (Hend0 : bi_end_io (rq w0) = Some EndSwapBioRead) by exact Hend.
      assert (Hpriv0 : bi_private (rq w0) = Some (current E)) by exact Hpriv.
      destruct (complete_read_effect K E sis st (current E) w0 Hend0 Hpriv0)
        as (Hp1 & Hl1 & Hf1 & post & Hlog1 & Hin1 & Hin2).
      destruct (return_effect (exec (complete K E sis st) w0))
        as (Hpg & Hbp & Hlg).
      unfold exec in *.
      rewrite Hpg, Hbp, Hlg, Hlog1.
      repeat (split; [assumption || reflexivity |]).
      exists pre, (rq ws), post.
      repeat split; try assumption.
      subst w0. cbn [log with_log]. rewrite Hlog.
      repeat rewrite <- app_assoc. reflexivity.
    + repeat split; try assumption.
      exists pre, (rq ws). cbn [log with_log]. rewrite Hlog.
      repeat rewrite <- app_assoc. reflexivity.
  - rewrite (while_synchronous_never K E sis (current E) Hdone fuel 0%nat ws
               Hpriv).
    unfold after_loop; cbn [fst snd].
    repeat split; try assumption.
    exists pre, (rq ws). cbn [log with_log]. rewrite Hlog.
    repeat rewrite <- app_assoc. reflexivity.
Qed.

Lemma blocking_read_returns_after_completion_witness :
  let E := plain_device true (Some (2%nat, 0)) in
  let w := world_of (locked_page 5) in
  eval (swap_readpage linux_x86_64 E block_device_store true 5) w = Some 0 /\
  bi_private (rq (exec (swap_readpage linux_x86_64 E block_device_store
                          true 5) w)) = None /\
  PG_locked (pg (exec (swap_readpage linux_x86_64 E block_device_store
                         true 5) w)) = false.
Proof.
  intros E w.
  assert (H1 : fst (frontswap_load E (pg w)) <> 0)
    by (vm_compute; discriminate).
  assert (H2 : has_flag block_device_store (SWP_FS linux_x86_64) = false)
    by reflexivity.
  assert (H3 : let p1 := snd (frontswap_load E (pg w)) in
               fst (bdev_read_page E (swap_page_sector linux_x86_64 E p1) p1)
               <> 0)
    by (vm_compute; discriminate).
  assert (H4 : bio_alloc E = true) by reflexivity.
  pose proof (blocking_read_returns_after_completion linux_x86_64 E
                block_device_store 5 w H1 H2 H3 H4) as H.
  cbv zeta in H.
  change (completion E) with (Some (2%nat, 0)) in H.
  change (2 <? 5)%nat with true in H.
  cbv iota beta in H.
  destruct H as (Hr & Hp & Hl & _).
  split; [exact Hr | split; [exact Hp | exact Hl]].
Defined.

(** ** The log only grows *)

Lemma appends_ret {A : Type} (a : A) : appends (ret a).
Proof. intros w. exists []. cbn. now rewrite app_nil_r. Qed.

Lemma appends_bind {A B : Type} (m : M A) (k : A -> M B) :
  appends m -> (forall a, appends (k a)) -> appends (bind m k).
Proof.
  intros Hm Hk w. unfold bind.
  destruct (Hm w) as [e1 He1]. destruct (m w) as [a w1]. cbn in He1.
  destruct (Hk a w1) as [e2 He2].
  exists (e1 ++ e2). now rewrite He2, He1, app_assoc.
Qed.

Lemma appends_emit (e : event) : appends (emit e).
Proof. intros w. exists [e]. reflexivity. Qed.

Lemma appends_on_page (f : page -> page) : appends (on_page f).
Proof. intros w. exists []. cbn. now rewrite app_nil_r. Qed.

Lemma appends_on_bio (f : bio -> bio) : appends (on_bio f).
Proof. intros w. exists []. cbn. now rewrite app_nil_r. Qed.

Lemma appends_the_bio : appends the_bio.
Proof. intros w. exists []. cbn. now rewrite app_nil_r. Qed.

Lemma appends_the_page : appends the_page.
Proof. intros w. exists []. cbn. now rewrite app_nil_r. Qed.

Lemma appends_when (b : bool) (m : M unit) : appends m -> appends (when b m).
Proof. intros Hm. destruct b; [exact Hm | apply appends_ret]. Qed.

Create HintDb appends.
#[export] Hint Resolve appends_ret appends_emit appends_on_page
  appends_on_bio appends_the_bio appends_the_page : appends.

Ltac appends_step :=
  first [ apply appends_ret | apply appends_emit | apply appends_on_page
        | apply appends_on_bio | apply appends_the_bio
        | apply appends_the_page
        | apply appends_when
        | apply appends_bind; [| intros ?] ].

Lemma appends_swap_slot_free_notify (K : kconfig) (E : ext)
    (sis : swap_info_struct) : appends (swap_slot_free_notify K E sis).
Proof.
  unfold swap_slot_free_notify. appends_step; [appends_step |].
  match goal with
  | |- context [PG_swapcache ?x] => destruct (negb (PG_swapcache x))
  end; [appends_step |].
  destruct (negb (has_flag sis (SWP_BLKDEV K))); [appends_step |].
  unfold SetPageDirty. repeat appends_step.
Qed.

Lemma appends_end_swap_bio_read (K : kconfig) (E : ext)
    (sis : swap_info_struct) : appends (end_swap_bio_read K E sis).
Proof.
  unfold end_swap_bio_read. appends_step; [appends_step |].
  appends_step.
  { match goal with
    | |- context [bi_status ?x] => destruct (negb (bi_status x =? 0))
    end.
    - unfold SetPageError, ClearPageUptodate, pr_alert. repeat appends_step.
    - appends_step; [| apply appends_swap_slot_free_notify].
      unfold SetPageUptodate. repeat appends_step. }
  unfold unlock_page, bio_put, blk_wake_io_task, put_task_struct.
  repeat appends_step.
  match goal with
  | |- context [bi_private ?x] => destruct (bi_private x)
  end; repeat appends_step.
Qed.

Lemma appends_end_swap_bio_write : appends end_swap_bio_write.
Proof.
  unfold end_swap_bio_write, SetPageError, set_page_dirty, pr_alert,
    ClearPageReclaim, end_page_writeback, bio_put.
  repeat appends_step.
Qed.

Lemma appends_complete (K : kconfig) (E : ext) (sis : swap_info_struct)
    (status : Z) : appends (complete K E sis status).
Proof.
  unfold complete. repeat appends_step.
  match goal with
  | |- context [bi_end_io ?x] => destruct (bi_end_io x) as [[| |]|]
  end.
  - apply appends_end_swap_bio_write.
  - apply appends_end_swap_bio_read.
  - apply appends_ret.
  - apply appends_ret.
Qed.

Lemma appends_while_synchronous (K : kconfig) (E : ext)
    (sis : swap_info_struct) (synchronous : bool) :
  forall fuel k, appends (while_synchronous K E sis synchronous fuel k).
Proof.
  destruct synchronous.
  2: { intros fuel k. destruct fuel; apply appends_ret. }
  induction fuel as [|fuel IH]; intros k; cbn [while_synchronous negb].
  { apply appends_ret. }
  unfold device_round, set_current_state.
  appends_step.
  { destruct (completion E) as [[d st]|]; [| appends_step].
    destruct (Nat.eqb d k); [apply appends_complete | appends_step]. }
  repeat appends_step.
  match goal with
  | |- context [bi_private ?x] => destruct (bi_private x)
  end; [| appends_step].
  repeat appends_step. apply IH.
Qed.

(** ** Who unlocks the page *)










(** ** Sectors *)

(** C7.  On a raw block device (SWP_BLKDEV, not SWP_FS) the sector of a
    transfer is the slot of the page shifted left by PAGE_SHIFT - 9, as a
    64-bit value: this is what [swap_page_sector] gives, what the fast
    paths of the write and of the read are called with, and what
    [get_swap_bio] puts in the request.  The extent table takes no part:
    the slot locator answers the slot itself whatever the table holds. *)
Theorem raw_block_device_sector (K : kconfig) (E : ext)
    (sis : swap_info_struct) (end_io : bio_end_io_t) (wbc : Z) (w : world)
    (Hblk : has_flag sis (SWP_BLKDEV K) = true)
    (Hfs : has_flag sis (SWP_FS K) = false)
    (Halloc : bio_alloc E = true) :
  let slot := __page_file_index E (pg w) in
  let sector := u64 (Z.shiftl slot (PAGE_SHIFT K - 9)) in
  swap_page_sector K E (pg w) = sector /\
  (forall table : list swap_extent,
     map_swap_page K E (set_extents sis table) (pg w) = (slot, bdev sis)) /\
  eval (get_swap_bio K E sis end_io) w = true /\
  bi_sector (rq (exec (get_swap_bio K E sis end_io) w)) = sector /\
  (forall table : list swap_extent,
     rq (exec (get_swap_bio K E (set_extents sis table) end_io) w) =
     rq (exec (get_swap_bio K E sis end_io) w)) /\
  (exists r evs,
     log (exec (__swap_writepage K E sis wbc end_io) w) =
     log w ++ EvCall (BdevWritePage sector) r :: evs) /\
  (forall synchronous fuel, exists r evs,
     log (exec (read_after_frontswap K E sis synchronous fuel) w) =
     log w ++ EvPsiEnter :: EvCall (BdevReadPage sector) r :: evs).
Proof.
  intros slot sector.
  assert (Hmap : forall table,
             map_swap_page K E (set_extents sis table) (pg w) =
             (slot, bdev sis)).
  { intros table. unfold map_swap_page.
    change (has_flag (set_extents sis table) (SWP_BLKDEV K))
      with (has_flag sis (SWP_BLKDEV K)).
    now rewrite Hblk. }
  assert (Hmap0 : map_swap_page K E sis (pg w) = (slot, bdev sis)).
  { unfold map_swap_page. now rewrite Hblk. }
  split; [reflexivity |]. split; [exact Hmap |].
  split; [| split; [| split; [| split]]].
  - unfold get_swap_bio. rewrite Halloc. unfold_io. cbn beta. cbn [pg with_rq].
    rewrite Hmap0. reflexivity.
  - unfold get_swap_bio. rewrite Halloc. unfold_io. cbn beta. cbn [pg with_rq].
    rewrite Hmap0. reflexivity.
  - intros table. unfold get_swap_bio. rewrite Halloc. unfold_io. cbn beta. cbn [pg with_rq].
    rewrite Hmap, Hmap0. reflexivity.
  - unfold __swap_writepage. rewrite Hfs. unfold get_swap_bio.
    rewrite Halloc. unfold_io.
    destruct w as [p b o i t l]; cbn.
    destruct (bdev_write_page E (swap_page_sector K E p) p) as [r1 p1]; cbn.
    exists r1.
    destruct (r1 =? 0); cbn;
      [| destruct (map_swap_page K E sis p1) as [s1 d1]; cbn];
      destruct (PageTransHuge p1); cbn; eexists; fix_log; reflexivity.
  - intros synchronous fuel.
    unfold read_after_frontswap. rewrite Hfs.
    remember (while_synchronous K E sis synchronous fuel 0) as loop eqn:Hloop.
    unfold get_swap_bio. rewrite Halloc. unfold_io.
    destruct w as [p b o i t l]; cbn.
    destruct (bdev_read_page E (swap_page_sector K E p) p) as [r1 p1]; cbn.
    exists r1.
    destruct (r1 =? 0); cbn.
    { destruct (PG_locked p1); cbn.
      - eexists; fix_log; reflexivity.
      - destruct (PG_swapcache p1); cbn;
          [destruct (has_flag sis (SWP_BLKDEV K)); cbn;
           [destruct (fops_swap_slot_free_notify sis); cbn;
            [destruct (__swap_count E (page_private p1) =? 1); cbn|]|]|];
          eexists; fix_log; reflexivity. }
    destruct (map_swap_page K E sis p1) as [s1 d1]; cbn.
    destruct synchronous; cbn;
      match goal with
      | Hl : loop = while_synchronous _ _ _ ?sy _ _ |- context [loop ?ws] =>
          let evs' := fresh "evs'" in
          let Hevs := fresh "Hevs" in
          let how := fresh "how" in
          pose proof (appends_while_synchronous K E sis sy fuel 0%nat ws)
            as [evs' Hevs];
          rewrite <- Hloop in Hevs; destruct (loop ws) as [how ?];
          cbn in Hevs;
          destruct how; cbn; rewrite Hevs; eexists; fix_log; reflexivity
      end.
Qed.

Lemma raw_block_device_sector_witness :
  let w := world_of (locked_page 5) in
  swap_page_sector linux_x86_64 (plain_device true None) (pg w) = 40 /\
  bi_sector (rq (exec (get_swap_bio linux_x86_64 (plain_device true None)
                         block_device_store EndSwapBioWrite) w)) = 40.
Proof.
  intros w.
  pose proof (raw_block_device_sector linux_x86_64 (plain_device true None)
                block_device_store EndSwapBioWrite 0 w) as H.
  destruct H as (H1 & _ & _ & H4 & _).
  - reflexivity.
  - reflexivity.
  - reflexivity.
  - split; [exact H1 | exact H4].
Defined.

(** ** Activation *)

Lemma u64_small (z : Z) : 0 <= z < 2 ^ 64 -> u64 z = z.
Proof. intros H. unfold u64, wrap. now apply Z.mod_small. Qed.

Lemma u32_small (z : Z) : 0 <= z < 2 ^ 32 -> u32 z = z.
Proof. intros H. unfold u32, wrap. now apply Z.mod_small. Qed.

Lemma slots_covered_app (sis : swap_info_struct) (l : list swap_extent)
    (se : swap_extent) :
  slots_covered (set_extents sis (l ++ [se])) =
  slots_covered (set_extents sis l) + nr_pages se.
Proof.
  unfold slots_covered; cbn [extents set_extents].
  induction l as [|x l IH]; cbn; lia.
Qed.

(** [add_swap_extent] answers 0 or 1, covers [nr_pg] more slots and
    touches nothing but the extent list. *)
Lemma add_swap_extent_effect (sis : swap_info_struct)
    (start_pg nr_pg start_blk : Z) :
  let ret := fst (add_swap_extent sis start_pg nr_pg start_blk) in
  let sis' := snd (add_swap_extent sis start_pg nr_pg start_blk) in
  (ret = 0 \/ ret = 1) /\
  max sis' = max sis /\ pages sis' = pages sis /\
  highest_bit sis' = highest_bit sis /\ flags sis' = flags sis /\
  slots_covered sis' = slots_covered sis + nr_pg.
Proof.
  unfold add_swap_extent.
  destruct (rev (extents sis)) as [|se before] eqn:Hrev.
  - cbn. repeat split; auto.
    apply (f_equal (@rev _)) in Hrev. rewrite rev_involutive in Hrev.
    unfold slots_covered. rewrite Hrev. cbn. lia.
  - assert (Hext : extents sis = rev before ++ [se]).
    { apply (f_equal (@rev _)) in Hrev. now rewrite rev_involutive in Hrev. }
    assert (Hsame : set_extents sis (extents sis) = sis) by now destruct sis.
    destruct (merges se start_pg start_blk); cbn [fst snd].
    + repeat split; auto.
      cbn [rev]. rewrite slots_covered_app. cbn [nr_pages].
      rewrite <- Hsame at 2. rewrite Hext, slots_covered_app. lia.
    + repeat split; auto.
      rewrite slots_covered_app. rewrite Hsame. reflexivity.
Qed.


Lemma blocks_per_page_pow2 (K : kconfig) (blkbits : Z) :
  0 <= blkbits <= PAGE_SHIFT K ->
  PAGE_SHIFT K - blkbits < 32 ->
  u32 (Z.shiftr (PAGE_SIZE K) blkbits) = 2 ^ (PAGE_SHIFT K - blkbits).
Proof.
  intros Hb Hw. unfold PAGE_SIZE.
  rewrite Z.shiftl_1_l, Z.shiftr_div_pow2 by lia.
  rewrite <- Z.pow_sub_r by lia.
  apply u32_small. split; [apply Z.pow_nonneg; lia |].
  apply Z.pow_lt_mono_r; lia.
Qed.

Lemma last_block_bound (ino : inode) :
  0 <= i_blkbits ino -> 0 <= i_size ino < 2 ^ 63 ->
  u64 (Z.shiftr (i_size ino) (i_blkbits ino)) =
    Z.shiftr (i_size ino) (i_blkbits ino) /\
  0 <= Z.shiftr (i_size ino) (i_blkbits ino) < 2 ^ 63.
Proof.
  intros Hb Hs.
  assert (H : 0 <= Z.shiftr (i_size ino) (i_blkbits ino) < 2 ^ 63).
  { rewrite Z.shiftr_div_pow2 by lia.
    assert (Hp : 0 < 2 ^ i_blkbits ino) by (apply Z.pow_pos_nonneg; lia).
    split; [apply Z.div_pos; lia |].
    apply Z.le_lt_trans with (i_size ino); [| lia].
    apply Z.div_le_upper_bound; nia. }
  split; [apply u64_small; lia | exact H].
Qed.









(** Every stride of a contiguous file is contiguous. *)
(** Why the hole must be one a stride can start at: in
    [file_with_late_hole] the scan reprobes at block 5 after the
    misaligned block 4, no stride fits any more, and the loop ends
    without ever asking for block 6.  Activation returns one extent and
    a store with slot 0 only. *)
Lemma activation_misses_late_hole :
  bmap file_with_late_hole 6 = 0 /\
  generic_swapfile_activate linux_x86_64 add_swap_extent (fresh_store 2)
    file_with_late_hole 0 =
  Some (1,
        set_slot_counts
          (set_extents (fresh_store 2)
             [{| start_page := 0; nr_pages := 1; start_block := 2 |}]) 1,
        2).
Proof. split; vm_compute; reflexivity. Qed.

Lemma for_block_in_page_contiguous_file (K : kconfig)
    (blkbits base n p : Z) (Hbase : 0 < base) (Hp : 0 <= p) :
  forall (m : nat) (i : Z),
    0 <= i ->
    base + p + i + Z.of_nat m <= 2 ^ 64 ->
    for_block_in_page (contiguous_file K blkbits base n) p (base + p) i m =
    Contiguous.
Proof.
  induction m as [|m IH]; intros i Hi Hfit; [reflexivity |].
  cbn [for_block_in_page contiguous_file bmap].
  rewrite (u64_small (p + i)) by lia.
  rewrite (u64_small (base + p + i)) by lia.
  replace (base + (p + i) =? 0) with false by (symmetry; apply Z.eqb_neq; lia).
  replace (base + (p + i) =? base + p + i) with true
    by (symmetry; apply Z.eqb_eq; lia).
  cbn [negb]. apply IH; lia.
Qed.


(** The extent count of the running scan is 1. *)
Ltac one_extent :=
  match goal with
  | |- context [s32 ?x] => change (s32 x) with 1
  end.

Section ContiguousFile.
Context (K : kconfig) (blkbits base : Z).
Local Abbreviation bpp := (2 ^ (PAGE_SHIFT K - blkbits)).
Local Abbreviation file := (contiguous_file K blkbits base 4).
Hypothesis Hbits : 0 <= blkbits <= PAGE_SHIFT K.
Hypothesis Hword : PAGE_SHIFT K - blkbits < 32.
Hypothesis Hbase : 0 < base.
Hypothesis Haligned : base mod bpp = 0.
Hypothesis Hfits : base + 4 * bpp < 2 ^ 64.

Lemma bpp_range : 0 < bpp < 2 ^ 32.
Proof.
  split; [apply Z.pow_pos_nonneg; lia |].
  apply Z.pow_lt_mono_r; lia.
Qed.

(** One turn of the loop at the start of slot [j]: the stride is
    accepted, slot [j] is given to [add_swap_extent] with its page-sized
    block number, and the scan moves to slot [j + 1]. *)
Lemma contiguous_file_step (fuel : nat) (j lo hi ne : Z)
    (st : swap_info_struct) :
  0 <= j < 4 -> j < max st ->
  let first := base / bpp + j in
  activate_loop K add_swap_extent (S fuel) file bpp (4 * bpp)
    {| probe_block := j * bpp; page_no := j; lowest_block := lo;
       highest_block := hi; nr_extents := ne; store := st |} =
  activate_loop K add_swap_extent fuel file bpp (4 * bpp)
    {| probe_block := (j + 1) * bpp; page_no := j + 1;
       lowest_block :=
         if negb (j =? 0) && (first <? lo) then first else lo;
       highest_block :=
         if negb (j =? 0) && (first >? hi) then first else hi;
       nr_extents := s32 (ne + fst (add_swap_extent st j 1 first));
       store := snd (add_swap_extent st j 1 first) |}.
Proof.
  intros Hj Hmax first. pose proof bpp_range as Hb.
  assert (H1 : (u64 (j * bpp + bpp) <=? 4 * bpp) = true).
  { rewrite u64_small by nia. apply Z.leb_le. nia. }
  assert (H2 : (j <? max st) = true) by (apply Z.ltb_lt; lia).
  assert (H4 : (base + j * bpp =? 0) = false) by (apply Z.eqb_neq; nia).
  assert (H5 : Z.land (base + j * bpp) (u32 (bpp - 1)) = 0).
  { rewrite u32_small by lia.
    replace (bpp - 1) with (Z.ones (PAGE_SHIFT K - blkbits))
      by (rewrite Z.ones_equiv; lia).
    rewrite Z.land_ones by lia.
    rewrite Z.mod_add by lia. exact Haligned. }
  assert (H6 : for_block_in_page file (j * bpp) (base + j * bpp) 1
                 (Z.to_nat (bpp - 1)) = Contiguous).
  { apply for_block_in_page_contiguous_file; try lia; nia. }
  assert (H7 : Z.shiftr (base + j * bpp) (PAGE_SHIFT K - blkbits) = first).
  { rewrite Z.shiftr_div_pow2 by lia.
    unfold first. apply Z.div_add. lia. }
  pose proof (add_swap_extent_effect st j 1 first) as (Hret & _).
  cbn [activate_loop probe_block page_no store lowest_block highest_block
         nr_extents].
  rewrite H1, H2. cbn [andb].
  change (bmap file (j * bpp)) with (base + j * bpp).
  change (i_blkbits file) with blkbits.
  rewrite H4, H5. cbn [Z.eqb negb]. rewrite H6, H7.
  destruct (add_swap_extent st j 1 first) as [ret st'].
  cbn [fst snd] in *.
  replace (ret <? 0) with false by (symmetry; apply Z.ltb_ge; lia).
  rewrite (u64_small (j * bpp + bpp)) by nia.
  rewrite (u64_small (j + 1)) by lia.
  replace (j * bpp + bpp) with ((j + 1) * bpp) by ring.
  reflexivity.
Qed.

Lemma contiguous_file_end (fuel : nat) (lo hi ne : Z)
    (st : swap_info_struct) :
  activate_loop K add_swap_extent (S fuel) file bpp (4 * bpp)
    {| probe_block := 4 * bpp; page_no := 4; lowest_block := lo;
       highest_block := hi; nr_extents := ne; store := st |} =
  Some (LoopEnd
    {| probe_block := 4 * bpp; page_no := 4; lowest_block := lo;
       highest_block := hi; nr_extents := ne; store := st |}).
Proof.
  pose proof bpp_range as Hb.
  cbn [activate_loop probe_block page_no store].
  rewrite u64_small by lia.
  replace (4 * bpp + bpp <=? 4 * bpp) with false
    by (symmetry; apply Z.leb_gt; lia).
  reflexivity.
Qed.

Local Abbreviation B := (base / bpp).

Lemma add_swap_extent_first (sis : swap_info_struct) (blk : Z) :
  extents sis = [] ->
  add_swap_extent sis 0 1 blk =
  (1, set_extents sis
        [{| start_page := 0; nr_pages := 1; start_block := blk |}]).
Proof. intros He. unfold add_swap_extent. now rewrite He. Qed.

Lemma add_swap_extent_next (sis : swap_info_struct) (n blk : Z) :
  add_swap_extent
    (set_extents sis
       [{| start_page := 0; nr_pages := n; start_block := blk |}])
    n 1 (blk + n) =
  (0, set_extents sis
        [{| start_page := 0; nr_pages := n + 1; start_block := blk |}]).
Proof.
  unfold add_swap_extent, merges.
  cbn [extents set_extents rev app start_page nr_pages start_block].
  now rewrite Z.add_0_l, !Z.eqb_refl.
Qed.

(** The whole scan of the four-page file. *)
Lemma contiguous_file_scan (sis : swap_info_struct) (m : nat) :
  extents sis = [] -> 4 <= max sis ->
  activate_loop K add_swap_extent (5 + m) file bpp (4 * bpp)
    {| probe_block := 0; page_no := 0; lowest_block := u64 (-1);
       highest_block := 0; nr_extents := 0; store := sis |} =
  Some (LoopEnd
    {| probe_block := 4 * bpp; page_no := 4; lowest_block := B + 1;
       highest_block := B + 3; nr_extents := 1;
       store := set_extents sis
                  [{| start_page := 0; nr_pages := 4;
                      start_block := B |}] |}).
Proof.
  intros Hempty Hmax. pose proof bpp_range as Hb.
  assert (HB : 0 <= B /\ B + 4 < 2 ^ 64).
  { split; [apply Z.div_pos; lia |].
    assert (base / bpp <= base) by (apply Z.div_le_upper_bound; nia).
    lia. }
  assert (Hlow : u64 (-1) = 2 ^ 64 - 1) by reflexivity.
  cbn [Nat.add].
  (* slot 0 *)
  change (activate_loop K add_swap_extent (S (S (S (S (S m))))) file bpp (4 * bpp)
            {| probe_block := 0 * bpp; page_no := 0;
               lowest_block := u64 (-1); highest_block := 0;
               nr_extents := 0; store := sis |} = 
          Some (LoopEnd
            {| probe_block := 4 * bpp; page_no := 4; lowest_block := B + 1;
               highest_block := B + 3; nr_extents := 1;
               store := set_extents sis
                          [{| start_page := 0; nr_pages := 4;
                              start_block := B |}] |})).
  rewrite (contiguous_file_step _ 0 (u64 (-1)) 0 0 sis)
    by lia.
  rewrite Z.add_0_r, (add_swap_extent_first sis B Hempty).
  cbn [fst snd Z.eqb negb andb Z.add Nat.add]. one_extent.
  (* slot 1 *)
  rewrite (contiguous_file_step _ 1 (u64 (-1)) 0 1
             (set_extents sis
                [{| start_page := 0; nr_pages := 1; start_block := B |}]))
    by (cbn [max set_extents]; lia).
  rewrite (add_swap_extent_next sis 1 B).
  cbn [fst snd Z.eqb Pos.eqb negb andb Z.add Pos.add Nat.add]. one_extent.
  replace (B + 1 <? u64 (-1)) with true
    by (symmetry; apply Z.ltb_lt; lia).
  replace (B + 1 >? 0) with true by (symmetry; apply Z.gtb_lt; lia).
  (* slot 2 *)
  rewrite (contiguous_file_step _ 2 (B + 1) (B + 1) 1
             (set_extents sis
                [{| start_page := 0; nr_pages := 2; start_block := B |}]))
    by (cbn [max set_extents]; lia).
  rewrite (add_swap_extent_next sis 2 B).
  cbn [fst snd Z.eqb Pos.eqb negb andb Z.add Pos.add Pos.succ Nat.add].
  one_extent.
  replace (B + 2 <? B + 1) with false by (symmetry; apply Z.ltb_ge; lia).
  replace (B + 2 >? B + 1) with true by (symmetry; apply Z.gtb_lt; lia).
  (* slot 3 *)
  rewrite (contiguous_file_step _ 3 (B + 1) (B + 2) 1
             (set_extents sis
                [{| start_page := 0; nr_pages := 3; start_block := B |}]))
    by (cbn [max set_extents]; lia).
  rewrite (add_swap_extent_next sis 3 B).
  cbn [fst snd Z.eqb Pos.eqb negb andb Z.add Pos.add Pos.succ Nat.add].
  one_extent.
  replace (B + 3 <? B + 1) with false by (symmetry; apply Z.ltb_ge; lia).
  replace (B + 3 >? B + 2) with true by (symmetry; apply Z.gtb_lt; lia).
  (* the file is exhausted *)
  apply contiguous_file_end.
Qed.
End ContiguousFile.

(** The scan of a four-page file of 1 KiB blocks, run. *)
Example activate_4_pages_1k_blocks :
  generic_swapfile_activate linux_x86_64 add_swap_extent (fresh_store 100)
    (contiguous_file linux_x86_64 10 8 4) 0
  = Some (1, set_slot_counts
               (set_extents (fresh_store 100)
                  [{| start_page := 0; nr_pages := 4; start_block := 2 |}]) 4,
          3).
Proof. vm_compute. reflexivity. Qed.

(** C1.  A file of four pages whose blocks are physically contiguous,
    starting at a page-aligned block [base] (blocks no larger than a
    page, block numbers within 64 bits), activated on a store with an
    empty extent list that declares at least four slots: the call
    returns 1 (one extent, slots 0 to 3 at page-sized block
    [base / blocks_per_page]), reports a span of 3 (the blocks of slots 1
    to 3; slot 0 takes no part in lowest/highest), and sets the slot
    count of the store to 4. *)
Theorem activate_four_contiguous_pages (K : kconfig)
    (sis : swap_info_struct) (blkbits base span0 : Z)
    (Hbits : 0 <= blkbits <= PAGE_SHIFT K)
    (Hword : PAGE_SHIFT K - blkbits < 32)
    (Hbase : 0 < base)
    (Haligned : base mod 2 ^ (PAGE_SHIFT K - blkbits) = 0)
    (Hfits : base + 4 * 2 ^ (PAGE_SHIFT K - blkbits) < 2 ^ 64)
    (Hempty : extents sis = [])
    (Hmax : 4 <= max sis) :
  let extent := {| start_page := 0; nr_pages := 4;
                   start_block := base / 2 ^ (PAGE_SHIFT K - blkbits) |} in
  let sis' := set_slot_counts (set_extents sis [extent]) 4 in
  generic_swapfile_activate K add_swap_extent sis (contiguous_file K blkbits base 4) span0 =
    Some (1, sis', 3) /\
  extents sis' = [extent] /\
  max sis' = 4 /\ pages sis' = 3 /\ highest_bit sis' = 3.
Proof.
  intros extent sis'.
  split; [| repeat split; reflexivity].
  pose proof (bpp_range K blkbits Hbits Hword) as Hb.
  set (bpp := 2 ^ (PAGE_SHIFT K - blkbits)) in *.
  set (B := base / bpp) in *.
  assert (HB : 0 <= B /\ B + 4 < 2 ^ 64).
  { unfold B. split; [apply Z.div_pos; lia |].
    assert (base / bpp <= base) by (apply Z.div_le_upper_bound; nia). lia. }
  unfold generic_swapfile_activate.
  change (i_blkbits (contiguous_file K blkbits base 4)) with blkbits.
  change (i_size (contiguous_file K blkbits base 4)) with (4 * PAGE_SIZE K).
  rewrite blocks_per_page_pow2 by lia. fold bpp.
  assert (Hlast : u64 (Z.shiftr (4 * PAGE_SIZE K) blkbits) = 4 * bpp).
  { unfold PAGE_SIZE. rewrite Z.shiftl_1_l, Z.shiftr_div_pow2 by lia.
    replace (4 * 2 ^ PAGE_SHIFT K) with (4 * bpp * 2 ^ blkbits).
    - rewrite Z.div_mul by (apply Z.pow_nonzero; lia).
      apply u64_small. lia.
    - unfold bpp. rewrite <- Z.mul_assoc, <- Z.pow_add_r by lia.
      do 2 f_equal. lia. }
  rewrite Hlast.
  assert (Hfuel : exists m, activate_fuel (4 * bpp) sis = (5 + m)%nat).
  { unfold activate_fuel.
    exists (Z.to_nat (4 * bpp) + Z.to_nat (max sis) - 3)%nat.
    clearbody bpp. clear - Hb Hmax. lia. }
  destruct Hfuel as [m ->].
  subst B bpp.
  rewrite (contiguous_file_scan K blkbits base Hbits Hword Hbase Haligned
             Hfits sis m Hempty Hmax).
  set (B := base / 2 ^ (PAGE_SHIFT K - blkbits)).
  cbn [nr_extents highest_block lowest_block page_no store Z.eqb].
  replace (1 + (B + 3) - (B + 1)) with 3 by lia.
  reflexivity.
Qed.

Lemma activate_four_contiguous_pages_witness :
  generic_swapfile_activate linux_x86_64 add_swap_extent (fresh_store 100)
    (contiguous_file linux_x86_64 10 8 4) 0 =
  Some (1,
        set_slot_counts
          (set_extents (fresh_store 100)
             [{| start_page := 0; nr_pages := 4;
                 start_block := 8 / 2 ^ (12 - 10) |}]) 4,
        3).
Proof.
  apply (activate_four_contiguous_pages linux_x86_64 (fresh_store 100) 10 8 0).
  - cbn. lia.
  - cbn. lia.
  - lia.
  - reflexivity.
  - cbn. lia.
  - reflexivity.
  - cbn. lia.
Defined.

(** The model of the scan does not run out of fuel: every turn of the
    loop that does not leave it advances [probe_block] or [page_no]. *)
Lemma activate_loop_terminates (K : kconfig)
    (A : swap_info_struct -> Z -> Z -> Z -> Z * swap_info_struct)
    (ino : inode) (bpp last : Z)
    (HA : forall st pg n blk, max (snd (A st pg n blk)) = max st)
    (Hbpp : 0 <= bpp < 2 ^ 32) (Hlast : 0 <= last < 2 ^ 63) :
  forall (fuel : nat) (s : scan),
    0 <= probe_block s <= last + 1 ->
    0 <= page_no s <= max (store s) ->
    max (store s) < 2 ^ 64 ->
    (Z.to_nat (last + 1 - probe_block s) +
     Z.to_nat (max (store s) - page_no s) < fuel)%nat ->
    activate_loop K A fuel ino bpp last s <> None.
Proof.
  induction fuel as [|fuel IH]; intros s Hprobe Hpage Hmax Hfuel; [lia |].
  cbn [activate_loop].
  rewrite (u64_small (probe_block s + bpp)) by lia.
  destruct ((probe_block s + bpp <=? last) &&
            (page_no s <? max (store s))) eqn:Hcond; [| discriminate].
  apply andb_prop in Hcond. destruct Hcond as [Hc1 Hc2].
  apply Z.leb_le in Hc1. apply Z.ltb_lt in Hc2.
  assert (Hre : activate_loop K A fuel ino bpp last (reprobe s) <> None).
  { apply IH; cbn [reprobe probe_block page_no store];
      rewrite ?u64_small by lia; lia. }
  destruct (bmap ino (probe_block s) =? 0); [discriminate |].
  destruct (negb (Z.land (bmap ino (probe_block s)) (u32 (bpp - 1)) =? 0));
    [exact Hre |].
  destruct (for_block_in_page ino (probe_block s) (bmap ino (probe_block s))
              1 (Z.to_nat (bpp - 1))); [| discriminate | exact Hre].
  pose proof (HA (store s) (page_no s) 1
                (Z.shiftr (bmap ino (probe_block s))
                   (PAGE_SHIFT K - i_blkbits ino))) as Hm.
  destruct (A (store s) (page_no s) 1
              (Z.shiftr (bmap ino (probe_block s))
                 (PAGE_SHIFT K - i_blkbits ino))) as [ret sis1].
  cbn [fst snd] in *.
  destruct (ret <? 0); [discriminate |].
  rewrite (u64_small (page_no s + 1)) by lia.
  apply IH; cbn [probe_block page_no store]; lia.
Qed.

Lemma add_swap_extent_keeps_max (st : swap_info_struct) (pg n blk : Z) :
  max (snd (add_swap_extent st pg n blk)) = max st.
Proof. apply (add_swap_extent_effect st pg n blk). Qed.

(** [generic_swapfile_activate] returns on every file and store. *)
Lemma generic_swapfile_activate_returns (K : kconfig)
    (sis : swap_info_struct) (ino : inode) (span0 : Z) :
  0 <= i_blkbits ino -> 0 <= i_size ino < 2 ^ 63 ->
  0 <= max sis < 2 ^ 64 ->
  generic_swapfile_activate K add_swap_extent sis ino span0 <> None.
Proof.
  intros Hbits Hsize Hmax. unfold generic_swapfile_activate.
  destruct (last_block_bound ino Hbits Hsize) as [Hlast Hrange].
  rewrite Hlast.
  assert (Hbpp : 0 <= u32 (Z.shiftr (PAGE_SIZE K) (i_blkbits ino)) < 2 ^ 32)
    by (apply Z.mod_pos_bound; lia).
  pose proof (activate_loop_terminates K add_swap_extent ino _ _
                add_swap_extent_keeps_max Hbpp Hrange
                (activate_fuel (Z.shiftr (i_size ino) (i_blkbits ino)) sis)
                {| probe_block := 0; page_no := 0; lowest_block := u64 (-1);
                   highest_block := 0; nr_extents := 0; store := sis |})
    as Hrun.
  cbn [probe_block page_no store] in Hrun.
  destruct (activate_loop K add_swap_extent _ ino _ _ _) as [[s | ret sis' | sis']|].
  - discriminate.
  - discriminate.
  - discriminate.
  - exfalso. apply Hrun; try lia; try reflexivity.
    unfold activate_fuel. lia.
Qed.

(** * Further properties of the code *)

(** ** Write path *)

(** X1.  On a filesystem-backed store (SWP_FS) [__swap_writepage] writes
    through [direct_IO] and never builds a request.  The result of
    [direct_IO] is kept in an [int]: [r] below is its value as an [int].
    When [r] is PAGE_SIZE the call returns 0 and counts one page.
    Otherwise it returns [r] (a short write is a non-negative byte
    count), marks the page dirty and clears the reclaim flag, but does
    not set the error flag and does not count.  In both cases the page
    ends unlocked and not under writeback.  A result that does not fit
    an [int] is judged by its low 32 bits.  Nothing is said of the
    reclaim flag after a full write: it is left to [end_page_writeback],
    which is not part of this file. *)
Theorem filesystem_write_outcome (K : kconfig) (E : ext)
    (sis : swap_info_struct) (wbc : Z) (end_io : bio_end_io_t) (w : world)
    (Hfs : has_flag sis (SWP_FS K) = true) :
  let pos := page_file_offset K E (pg w) in
  let r := s32 (direct_IO E pos) in
  let full := u64 r =? PAGE_SIZE K in
  let w' := exec (__swap_writepage K E sis wbc end_io) w in
  eval (__swap_writepage K E sis wbc end_io) w = (if full then 0 else r) /\
  PG_locked (pg w') = false /\
  PG_writeback (pg w') = false /\
  PG_error (pg w') = PG_error (pg w) /\
  PG_uptodate (pg w') = PG_uptodate (pg w) /\
  PG_dirty (pg w') = (if full then PG_dirty (pg w) else true) /\
  (if full then True else PG_reclaim (pg w') = false) /\
  PSWPOUT w' = PSWPOUT w + (if full then 1 else 0) /\
  THP_SWPOUT w' = THP_SWPOUT w /\
  rq w' = rq w /\
  log w' = log w ++
           [EvSetWriteback; EvUnlock; EvCall (DirectIO pos) (direct_IO E pos)]
           ++ (if full then []
               else [EvSetDirty; EvClearReclaim; EvErrRatelimited]) ++
           [EvEndWriteback].
Proof.
  unfold_io. rewrite Hfs. destruct w as [p b o i t l]; cbn.
  destruct (u64 (s32 (direct_IO E (page_file_offset K E p))) =? PAGE_SIZE K);
    cbn; fix_log; rewrite ?Z.add_0_r; repeat split; reflexivity.
Qed.

Lemma filesystem_write_outcome_witness :
  let w := world_of (locked_page 5) in
  eval (__swap_writepage linux_x86_64 wide_filesystem
          filesystem_store 0 EndSwapBioWrite) w = 0 /\
  PSWPOUT (exec (__swap_writepage linux_x86_64 wide_filesystem
                   filesystem_store 0 EndSwapBioWrite) w) = 1.
Proof.
  intros w.
  pose proof (filesystem_write_outcome linux_x86_64 wide_filesystem
                filesystem_store 0 EndSwapBioWrite w) as H.
  destruct H as (H1 & _ & _ & _ & _ & _ & _ & H8 & _).
  - reflexivity.
  - split; [exact H1 | exact H8].
Defined.

(** X2.  When the page could be freed from the swap cache, or the
    front-end cache took it, [swap_writepage] returns 0 with the page
    unlocked and nothing transferred: no request is built, neither the
    device nor the filesystem is called, and the transfer counters do
    not move.  The log is exact.  After a freed page the path only
    unlocks.  After the cache took the page it sets writeback, unlocks,
    ends writeback and feeds the swap-out latency statistic once, with
    the 64-bit difference of the two readings of the cycle counter; this
    is the only statistic that moves. *)
Theorem write_short_circuit_no_transfer (K : kconfig) (E : ext)
    (sis : swap_info_struct) (wbc : Z) (w : world)
    (Hshort : write_short_circuit E (pg w) = true) :
  let w' := exec (swap_writepage K E sis wbc) w in
  eval (swap_writepage K E sis wbc) w = 0 /\
  PG_locked (pg w') = false /\
  rq w' = rq w /\
  PSWPOUT w' = PSWPOUT w /\ THP_SWPOUT w' = THP_SWPOUT w /\
  PSWPIN w' = PSWPIN w /\
  log w' = log w ++
    (if fst (try_to_free_swap E (pg w))
     then [EvCall TryToFreeSwap 1; EvUnlock]
     else [EvCall TryToFreeSwap 0; EvCall FrontswapStore 0;
           EvSetWriteback; EvUnlock; EvEndWriteback;
           EvAccumAdcSwapoutLatency
             (u64 (get_cycles_end E - get_cycles_start E))]).
Proof.
  unfold write_short_circuit in Hshort.
  unfold_io. destruct w as [p b o i t l]; cbn in *.
  destruct (try_to_free_swap E p) as [freed p0]; cbn in *.
  destruct freed; cbn in *.
  - fix_log. repeat split; reflexivity.
  - destruct (frontswap_store E p0) as [r1 p1]; cbn in *.
    rewrite Hshort. cbn. apply Z.eqb_eq in Hshort. subst r1.
    fix_log. repeat split; reflexivity.
Qed.

Lemma write_short_circuit_no_transfer_witness :
  let w := world_of (locked_page 5) in
  eval (swap_writepage linux_x86_64 storing_cache block_device_store 0) w = 0
  /\ log (exec (swap_writepage linux_x86_64 storing_cache
                  block_device_store 0) w) =
     [EvCall TryToFreeSwap 0; EvCall FrontswapStore 0;
      EvSetWriteback; EvUnlock; EvEndWriteback;
      EvAccumAdcSwapoutLatency 600].
Proof.
  intros w.
  pose proof (write_short_circuit_no_transfer linux_x86_64 storing_cache
                block_device_store 0 w) as H.
  destruct H as (H1 & _ & _ & _ & _ & _ & H7).
  - reflexivity.
  - split; [exact H1 | exact H7].
Defined.

(** X3.  A write on the generic request path whose request the device
    completes without error: the page ends unlocked and not under
    writeback, its error, dirty and uptodate flags are the ones the
    declined fast path left (the handler sets none of them), the only
    reference to the request is released, and the written-pages counter
    has grown by the page count of the page (the huge-page counter by
    one for a transparent huge page).  Nothing is said of the reclaim
    flag: the handler leaves it to [end_page_writeback], which is not
    part of this file. *)
Theorem swap_write_success_completion (K : kconfig) (E : ext)
    (sis : swap_info_struct) (wbc : Z) (w : world)
    (Hfs : has_flag sis (SWP_FS K) = false)
    (Hfast : fst (bdev_write_page E (swap_page_sector K E (pg w)) (pg w)) <> 0)
    (Halloc : bio_alloc E = true) :
  let p1 := snd (bdev_write_page E (swap_page_sector K E (pg w)) (pg w)) in
  let w' := write_then_complete K E sis wbc 0 w in
  PG_locked (pg w') = false /\
  PG_writeback (pg w') = false /\
  PG_error (pg w') = PG_error p1 /\
  PG_dirty (pg w') = PG_dirty p1 /\
  PG_uptodate (pg w') = PG_uptodate p1 /\
  bi_cnt (rq w') = 0 /\
  PSWPOUT w' = PSWPOUT w + hpage_nr_pages K p1 /\
  THP_SWPOUT w' = THP_SWPOUT w + (if PageTransHuge p1 then 1 else 0) /\
  PSWPIN w' = PSWPIN w /\
  (exists b, log w' = log w ++
     [EvCall (BdevWritePage (swap_page_sector K E (pg w)))
        (fst (bdev_write_page E (swap_page_sector K E (pg w)) (pg w)));
      EvSetWriteback; EvUnlock; EvSubmitBio b;
      EvEndWriteback; EvBioPut]).
Proof.
  unfold write_then_complete. unfold_io. rewrite Hfs, Halloc.
  destruct w as [p b o i t l]; cbn in *.
  destruct (bdev_write_page E (swap_page_sector K E p) p) as [r p1]; cbn in *.
  apply Z.eqb_neq in Hfast. rewrite Hfast. cbn.
  unfold hpage_nr_pages.
  destruct (PageTransHuge p1); cbn; rewrite ?Z.add_0_r;
    repeat split; try reflexivity;
    eexists; fix_log; reflexivity.
Qed.

Lemma swap_write_success_completion_witness :
  let w' := write_then_complete linux_x86_64 (plain_device true None)
              block_device_store 0 0 (world_of (locked_page 5)) in
  PG_locked (pg w') = false /\ PG_writeback (pg w') = false /\
  bi_cnt (rq w') = 0.
Proof.
  intros w'.
  pose proof (swap_write_success_completion linux_x86_64
                (plain_device true None) block_device_store 0
                (world_of (locked_page 5))) as H.
  destruct H as (H2 & H3 & _ & _ & _ & H7 & _).
  - reflexivity.
  - vm_compute. discriminate.
  - reflexivity.
  - repeat split; assumption.
Defined.

(** X4.  The request a generic-path write submits: it addresses the
    sector the slot locator gives, shifted to 512-byte units, on the
    device of the store; it covers the whole page, times the page count
    for a huge page; it carries the continuation the caller passed, the
    write and swap flags, no waiting task and a single reference.  The
    page is marked under writeback and unlocked before the request is
    handed over, and the request is submitted once. *)
Theorem generic_write_request (K : kconfig) (E : ext)
    (sis : swap_info_struct) (wbc : Z) (end_io : bio_end_io_t) (w : world)
    (Hfs : has_flag sis (SWP_FS K) = false)
    (Hfast : fst (bdev_write_page E (swap_page_sector K E (pg w)) (pg w)) <> 0)
    (Halloc : bio_alloc E = true) :
  let sector := swap_page_sector K E (pg w) in
  let r := fst (bdev_write_page E sector (pg w)) in
  let p1 := snd (bdev_write_page E sector (pg w)) in
  let w' := exec (__swap_writepage K E sis wbc end_io) w in
  let b := rq w' in
  bi_sector b =
    u64 (Z.shiftl (fst (map_swap_page K E sis p1)) (PAGE_SHIFT K - 9)) /\
  bi_disk b = bdev sis /\
  bi_size b = PAGE_SIZE K * hpage_nr_pages K p1 /\
  bi_end_io b = Some end_io /\
  bi_opf b = Z.lor (Z.lor (REQ_OP_WRITE K) (REQ_SWAP K))
               (wbc_to_write_flags E wbc) /\
  bi_private b = None /\
  bi_cnt b = 1 /\
  PG_writeback (pg w') = true /\
  log w' = log w ++ [EvCall (BdevWritePage sector) r; EvSetWriteback;
                     EvUnlock; EvSubmitBio b].
Proof.
  unfold_io. rewrite Hfs, Halloc.
  destruct w as [p b o i t l]; cbn in *.
  destruct (bdev_write_page E (swap_page_sector K E p) p) as [r p1]; cbn in *.
  apply Z.eqb_neq in Hfast. rewrite Hfast. cbn.
  unfold map_swap_page. cbn.
  destruct (PageTransHuge p1); cbn; fix_log; repeat split; reflexivity.
Qed.

Lemma generic_write_request_witness :
  let w' := exec (__swap_writepage linux_x86_64 (plain_device true None)
                    block_device_store 0 EndSwapBioWrite)
              (world_of (locked_page 5)) in
  bi_sector (rq w') = 40 /\ bi_size (rq w') = 4096.
Proof.
  intros w'.
  pose proof (generic_write_request linux_x86_64 (plain_device true None)
                block_device_store 0 EndSwapBioWrite
                (world_of (locked_page 5))) as H.
  destruct H as (H1 & _ & H3 & _).
  - reflexivity.
  - vm_compute. discriminate.
  - reflexivity.
  - split; [exact H1 | exact H3].
Defined.

(** ** Read paths *)

(** X5.  When a read reaches the generic request path and the request
    cannot be allocated, [swap_readpage] returns -ENOMEM at once, also
    for a blocking read: it unlocks the page, closes the memory-stall
    section it opened, counts nothing, submits nothing and leaves the
    uptodate and error flags as the declined fast path left them. *)
Theorem swap_readpage_alloc_failure (K : kconfig) (E : ext)
    (sis : swap_info_struct) (synchronous : bool) (fuel : nat) (w : world)
    (Hmiss : fst (frontswap_load E (pg w)) <> 0)
    (Hfs : has_flag sis (SWP_FS K) = false)
    (Hfast : let p0 := snd (frontswap_load E (pg w)) in
             fst (bdev_read_page E (swap_page_sector K E p0) p0) <> 0)
    (Halloc : bio_alloc E = false) :
  let r0 := fst (frontswap_load E (pg w)) in
  let p0 := snd (frontswap_load E (pg w)) in
  let sector := swap_page_sector K E p0 in
  let r1 := fst (bdev_read_page E sector p0) in
  let p1 := snd (bdev_read_page E sector p0) in
  let w' := exec (swap_readpage K E sis synchronous fuel) w in
  eval (swap_readpage K E sis synchronous fuel) w = Some (- ENOMEM K) /\
  pg w' = with_locked false p1 /\
  PG_uptodate (pg w') = PG_uptodate p1 /\
  PG_error (pg w') = PG_error p1 /\
  rq w' = rq w /\
  PSWPIN w' = PSWPIN w /\
  log w' = log w ++ [EvCall FrontswapLoad r0; EvPsiEnter;
                     EvCall (BdevReadPage sector) r1; EvUnlock; EvPsiLeave].
Proof.
  unfold swap_readpage, read_after_frontswap. unfold_io.
  rewrite Hfs, Halloc.
  destruct w as [p b o i t l]; cbn in *.
  destruct (frontswap_load E p) as [r0 p0]; cbn in *.
  apply Z.eqb_neq in Hmiss. rewrite Hmiss. cbn.
  destruct (bdev_read_page E (swap_page_sector K E p0) p0) as [r1 p1];
    cbn in *.
  apply Z.eqb_neq in Hfast. rewrite Hfast. cbn.
  fix_log. repeat split; reflexivity.
Qed.

Lemma swap_readpage_alloc_failure_witness :
  eval (swap_readpage linux_x86_64 (plain_device false None)
          block_device_store true 3) (world_of (locked_page 5)) = Some (-12).
Proof.
  pose proof (swap_readpage_alloc_failure linux_x86_64
                (plain_device false None) block_device_store true 3
                (world_of (locked_page 5))) as H.
  destruct H as (H1 & _).
  - vm_compute. discriminate.
  - reflexivity.
  - vm_compute. discriminate.
  - reflexivity.
  - exact H1.
Defined.

Lemma weigh_app (f : event -> Z) (l1 l2 : list event) :
  weigh f (l1 ++ l2) = weigh f l1 + weigh f l2.
Proof. unfold weigh. induction l1 as [|e l1 IH]; cbn; lia. Qed.

(** What the read handler does to any world whose request carries it. *)
Lemma complete_read_frame (K : kconfig) (E : ext)
    (sis : swap_info_struct) (st : Z) (w0 : world)
    (Hend : bi_end_io (rq w0) = Some EndSwapBioRead) :
  let w1 := exec (complete K E sis st) w0 in
  PG_locked (pg w1) = false /\
  (if st =? 0
   then PG_uptodate (pg w1) = true /\ PG_error (pg w1) = PG_error (pg w0)
   else PG_error (pg w1) = true /\ PG_uptodate (pg w1) = false /\
        PG_dirty (pg w1) = PG_dirty (pg w0)) /\
  bi_private (rq w1) = None /\
  bi_cnt (rq w1) = bi_cnt (rq w0) - 1 /\
  PSWPIN w1 = PSWPIN w0 /\ PSWPOUT w1 = PSWPOUT w0 /\
  THP_SWPOUT w1 = THP_SWPOUT w0 /\
  exists post,
    log w1 = log w0 ++ post /\
    weigh stall_section post = 0 /\
    weigh task_reference post =
      match bi_private (rq w0) with Some _ => -1 | None => 0 end /\
    (bi_private (rq w0) = None -> Forall (fun e => ~ task_event e) post) /\
    weigh read_started post = 0.
Proof.
  destruct w0 as [p b o i tt' l]. destruct b as [s0 d0 e0 z0 f0 v0 u0 c0].
  cbn in Hend. subst e0.
  unfold_io. cbn.
  destruct (st =? 0); cbn;
    try (destruct (PG_swapcache p); cbn;
         [destruct (has_flag sis (SWP_BLKDEV K)); cbn;
          [destruct (fops_swap_slot_free_notify sis); cbn;
           [destruct (__swap_count E (page_private p) =? 1); cbn|]|]|]);
    destruct v0; cbn;
    (repeat split; try reflexivity);
    fix_log; eexists; (split; [reflexivity |]);
    (split; [reflexivity |]); (split; [reflexivity |]);
    (split; [| reflexivity]);
    intros Hnone; try discriminate;
    repeat constructor; cbn; tauto.
Qed.

(** An asynchronous read on the generic request path, at its return. *)
Lemma async_read_submits (K : kconfig) (E : ext)
    (sis : swap_info_struct) (w : world)
    (Hmiss : fst (frontswap_load_async E (pg w)) <> 0)
    (Hfs : has_flag sis (SWP_FS K) = false)
    (Hfast : let p0 := snd (frontswap_load_async E (pg w)) in
             fst (bdev_read_page E (swap_page_sector K E p0) p0) <> 0)
    (Halloc : bio_alloc E = true) :
  let p0 := snd (frontswap_load_async E (pg w)) in
  let p1 := snd (bdev_read_page E (swap_page_sector K E p0) p0) in
  let w1 := exec (swap_readpage_async K E sis 0) w in
  eval (swap_readpage_async K E sis 0) w = Some 0 /\
  pg w1 = p1 /\
  bi_end_io (rq w1) = Some EndSwapBioRead /\
  bi_private (rq w1) = None /\
  bi_cnt (rq w1) = 1 /\
  PSWPIN w1 = PSWPIN w + 1 /\
  exists pre, log w1 = log w ++ pre /\
              Forall (fun e => ~ task_event e) pre.
Proof.
  unfold swap_readpage_async, read_after_frontswap.
  rewrite !while_not_synchronous.
  unfold_io. rewrite Hfs, Halloc.
  destruct w as [p b o i t l]; cbn in *.
  destruct (frontswap_load_async E p) as [r0 p0]; cbn in *.
  apply Z.eqb_neq in Hmiss. rewrite Hmiss. cbn.
  destruct (bdev_read_page E (swap_page_sector K E p0) p0) as [r1 p1];
    cbn in *.
  apply Z.eqb_neq in Hfast. rewrite Hfast. cbn.
  unfold map_swap_page. cbn.
  repeat split; try reflexivity.
  eexists; split; [fix_log; reflexivity |].
  repeat constructor; cbn; tauto.
Qed.

(** X6.  An asynchronous read on the generic request path returns 0
    without touching the page: the handler's reference to the request is
    still held and the read is already counted.  When the device then
    completes the request, the page is unlocked; it is uptodate after a
    success, and has the error flag and is not uptodate after a failure.
    The last reference to the request is released, the read stays
    counted once whatever the status, and no task is woken. *)
Theorem async_read_completion (K : kconfig) (E : ext)
    (sis : swap_info_struct) (status : Z) (w : world)
    (Hmiss : fst (frontswap_load_async E (pg w)) <> 0)
    (Hfs : has_flag sis (SWP_FS K) = false)
    (Hfast : let p0 := snd (frontswap_load_async E (pg w)) in
             fst (bdev_read_page E (swap_page_sector K E p0) p0) <> 0)
    (Halloc : bio_alloc E = true) :
  let p0 := snd (frontswap_load_async E (pg w)) in
  let p1 := snd (bdev_read_page E (swap_page_sector K E p0) p0) in
  let w1 := exec (swap_readpage_async K E sis 0) w in
  let w' := async_read_then_complete K E sis status w in
  eval (swap_readpage_async K E sis 0) w = Some 0 /\
  pg w1 = p1 /\
  bi_cnt (rq w1) = 1 /\
  PSWPIN w1 = PSWPIN w + 1 /\
  PG_locked (pg w') = false /\
  (if status =? 0
   then PG_uptodate (pg w') = true /\ PG_error (pg w') = PG_error p1
   else PG_error (pg w') = true /\ PG_uptodate (pg w') = false /\
        PG_dirty (pg w') = PG_dirty p1) /\
  bi_cnt (rq w') = 0 /\
  PSWPIN w' = PSWPIN w + 1 /\
  exists evs, log w' = log w ++ evs /\ Forall (fun e => ~ task_event e) evs.
Proof.
  intros p0 p1 w1 w'.
  destruct (async_read_submits K E sis w Hmiss Hfs Hfast Halloc)
    as (Hret & Hpg & Hend & Hpriv & Hcnt & Hin & pre & Hlog & Hpre).
  subst w' w1 p1 p0. unfold async_read_then_complete.
  cbv zeta in Hpg, Hend, Hpriv, Hcnt, Hin, Hlog.
  destruct (complete_read_frame K E sis status
              (exec (swap_readpage_async K E sis 0) w) Hend)
    as (Hl & Hflags & _ & Hc & Hi & _ & _ & post & Hlog' & _ & _ & Hpost & _).
  cbv zeta in Hl, Hflags, Hc, Hi, Hlog'.
  rewrite Hpg in Hflags.
  split; [exact Hret |]. split; [exact Hpg |]. split; [exact Hcnt |].
  split; [exact Hin |]. split; [exact Hl |]. split; [exact Hflags |].
  split; [lia |]. split; [lia |].
  exists (pre ++ post). split.
  - rewrite Hlog', Hlog. now rewrite app_assoc.
  - apply Forall_app. split; [exact Hpre | exact (Hpost Hpriv)].
Qed.

Lemma async_read_completion_witness :
  let w' := async_read_then_complete linux_x86_64 (plain_device true None)
              block_device_store 10 (world_of (locked_page 5)) in
  PG_locked (pg w') = false /\ bi_cnt (rq w') = 0 /\ PSWPIN w' = 1.
Proof.
  intros w'.
  pose proof (async_read_completion linux_x86_64 (plain_device true None)
                block_device_store 10 (world_of (locked_page 5))) as H.
  destruct H as (_ & _ & _ & _ & H5 & _ & H7 & H8 & _).
  - vm_compute. discriminate.
  - reflexivity.
  - vm_compute. discriminate.
  - reflexivity.
  - repeat split; assumption.
Defined.

(** X7.  A read the device fast path took ([bdev_read_page] answered 0)
    returns 0, counts one read and builds no request.  The slot-free
    notification runs only when the page lock could be taken, that is
    when the fast path gave the page back unlocked; the page is then
    unlocked again.  A page that is still locked is left exactly as the
    fast path left it. *)
Theorem fast_path_read (K : kconfig) (E : ext)
    (sis : swap_info_struct) (synchronous : bool) (fuel : nat) (w : world)
    (Hfs : has_flag sis (SWP_FS K) = false)
    (Hfast : fst (bdev_read_page E (swap_page_sector K E (pg w)) (pg w)) = 0) :
  let sector := swap_page_sector K E (pg w) in
  let p1 := snd (bdev_read_page E sector (pg w)) in
  let w1 := with_log (log w ++ [EvPsiEnter; EvCall (BdevReadPage sector) 0])
              (with_pg p1 w) in
  let w' := exec (read_after_frontswap K E sis synchronous fuel) w in
  eval (read_after_frontswap K E sis synchronous fuel) w = Some 0 /\
  rq w' = rq w /\
  PSWPIN w' = PSWPIN w + 1 /\
  (if PG_locked p1
   then pg w' = p1 /\
        log w' = log w1 ++ [EvPsiLeave]
   else pg w' = with_locked false
                  (pg (exec (swap_slot_free_notify K E sis)
                         (with_pg (with_locked true p1) w1))) /\
        PG_locked (pg w') = false /\
        log w' = log (exec (swap_slot_free_notify K E sis)
                        (with_log (log w1 ++ [EvLock])
                           (with_pg (with_locked true p1) w1))) ++
                 [EvUnlock; EvPsiLeave]).
Proof.
  unfold read_after_frontswap. unfold_io. rewrite Hfs.
  destruct w as [p b o i t l]; cbn in *.
  destruct (bdev_read_page E (swap_page_sector K E p) p) as [r1 p1];
    cbn in *.
  subst r1. cbn.
  destruct (PG_locked p1); cbn.
  - fix_log. repeat split; reflexivity.
  - destruct (PG_swapcache p1); cbn;
      [destruct (has_flag sis (SWP_BLKDEV K)); cbn;
       [destruct (fops_swap_slot_free_notify sis); cbn;
        [destruct (__swap_count E (page_private p1) =? 1); cbn|]|]|];
      fix_log; repeat split; reflexivity.
Qed.

Lemma fast_path_read_witness :
  let w' := exec (read_after_frontswap linux_x86_64 fast_device
                    block_device_store false 0) (world_of (locked_page 5)) in
  eval (read_after_frontswap linux_x86_64 fast_device block_device_store
          false 0) (world_of (locked_page 5)) = Some 0 /\
  PSWPIN w' = 1.
Proof.
  intros w'.
  pose proof (fast_path_read linux_x86_64 fast_device block_device_store
                false 0 (world_of (locked_page 5))) as H.
  destruct H as (H1 & _ & H3 & _).
  - reflexivity.
  - reflexivity.
  - split; [exact H1 | exact H3].
Defined.

Lemma wait_rounds_weights (E : ext) (n k : nat) :
  weigh stall_section (wait_rounds E k n) = 0 /\
  weigh task_reference (wait_rounds E k n) = 0 /\
  weigh read_started (wait_rounds E k n) = 0.
Proof.
  revert k. induction n as [|n IH]; intros k; [repeat split; reflexivity |].
  destruct (IH (S k)) as (H1 & H2 & H3). cbn [wait_rounds].
  rewrite !weigh_app, H1, H2, H3.
  destruct (blk_poll E k); repeat split; reflexivity.
Qed.

(** Leaving the loop and returning drops the caller's reference to the
    request, closes the stall section and moves no counter. *)
Lemma return_frame (w1 : world) :
  let w2 := exec (set_current_state TASK_RUNNING ;; bio_put ;;
                  psi_memstall_leave)
              (exec (set_current_state TASK_UNINTERRUPTIBLE) w1) in
  bi_cnt (rq w2) = bi_cnt (rq w1) - 1 /\
  PSWPIN w2 = PSWPIN w1 /\ PSWPOUT w2 = PSWPOUT w1 /\
  log w2 = log w1 ++ return_events.
Proof.
  destruct w1 as [p b o i t l]. unfold_io. cbn. fix_log.
  repeat split; reflexivity.
Qed.

(** A blocking read past the front-end cache, on the generic request
    path, up to the submission. *)
Lemma generic_read_at_submission (K : kconfig) (E : ext)
    (sis : swap_info_struct) (fuel : nat) (w : world)
    (Hfs : has_flag sis (SWP_FS K) = false)
    (Hfast : fst (bdev_read_page E (swap_page_sector K E (pg w)) (pg w)) <> 0)
    (Halloc : bio_alloc E = true) :
  exists (ws : world) (pre : list event),
    read_after_frontswap K E sis true fuel w =
      after_loop (while_synchronous K E sis true fuel 0 ws) /\
    log ws = log w ++ pre /\
    weigh stall_section pre = 1 /\
    weigh task_reference pre = 1 /\
    weigh read_started pre = 1 /\
    bi_private (rq ws) = Some (current E) /\
    bi_end_io (rq ws) = Some EndSwapBioRead /\
    bi_cnt (rq ws) = 2 /\
    PSWPIN ws = PSWPIN w + 1 /\
    PSWPOUT ws = PSWPOUT w.
Proof.
  unfold read_after_frontswap.
  rewrite Hfs.
  unfold bind at 1. unfold psi_memstall_enter at 1, emit at 1.
  unfold bind at 1. unfold the_page at 1.
  destruct w as [p b o i t l]; cbn [pg with_pg with_log log] in *.
  unfold bind at 1. unfold call_page at 1. cbn [pg with_pg with_log log].
  destruct (bdev_read_page E (swap_page_sector K E p) p) as [r1 p1];
    cbn [fst snd] in *.
  apply Z.eqb_neq in Hfast. rewrite Hfast.
  unfold bind at 1. unfold get_swap_bio.
  rewrite Halloc. unfold map_swap_page.
  match goal with
  | |- context [while_synchronous K E sis true fuel 0] =>
      remember (while_synchronous K E sis true fuel 0) as loop eqn:Hloop
  end.
  unfold after_loop. unfold_io. cbn.
  match goal with
  | |- context [loop ?ws] =>
      exists ws,
        [EvPsiEnter;
         EvCall (BdevReadPage (swap_page_sector K E p)) r1;
         EvGetTask (current E); EvBioGet; EvSubmitBio (rq ws)]
  end.
  split.
  - match goal with
    | |- context [loop ?ws] => destruct (loop ws) as [[|] w1]
    end; reflexivity.
  - cbn. fix_log. rewrite Hfast. repeat split; reflexivity.
Qed.

(** The books of a blocking read on the generic request path: whether
    it has returned, the references to the request, the counters, and
    the balance of stall sections and task references in its log. *)
Lemma generic_blocking_read_balance (K : kconfig) (E : ext)
    (sis : swap_info_struct) (fuel : nat) (w : world)
    (Hfs : has_flag sis (SWP_FS K) = false)
    (Hfast : fst (bdev_read_page E (swap_page_sector K E (pg w)) (pg w)) <> 0)
    (Halloc : bio_alloc E = true) :
  let returned :=
    match completion E with
    | Some (d, _) => (d <? fuel)%nat
    | None => false
    end in
  let r := eval (read_after_frontswap K E sis true fuel) w in
  let w' := exec (read_after_frontswap K E sis true fuel) w in
  r = (if returned then Some 0 else None) /\
  bi_cnt (rq w') = (if returned then 0 else 2) /\
  PSWPIN w' = PSWPIN w + 1 /\
  PSWPOUT w' = PSWPOUT w /\
  exists evs,
    log w' = log w ++ evs /\
    weigh stall_section evs = (if returned then 0 else 1) /\
    weigh task_reference evs = (if returned then 0 else 1) /\
    weigh read_started evs = 1.
Proof.
  intros returned r w'. subst returned r w'. unfold exec, eval.
  destruct (generic_read_at_submission K E sis fuel w Hfs Hfast Halloc)
    as (ws & pre & Hrun & Hlog & Hs & Ht & Hr & Hpriv & Hend & Hcnt & Hin
        & Hout).
  rewrite Hrun. clear Hrun.
  destruct (wait_rounds_weights E fuel 0) as (Hws & Hwt & Hwr).
  destruct (completion E) as [[d st]|] eqn:Hdone.
  - rewrite (while_synchronous_completes K E sis d st (current E) Hdone
               d 0%nat fuel ws eq_refl Hpriv Hend).
    destruct (d <? fuel)%nat; unfold after_loop; cbn [fst snd].
    + set (w0 := with_log (log ws ++ wait_rounds E 0 d) ws).
      assert (Hend0 : bi_end_io (rq w0) = Some EndSwapBioRead) by exact Hend.
      destruct (complete_read_frame K E sis st w0 Hend0)
        as (_ & _ & _ & Hc1 & Hi1 & Ho1 & _ & post & Hlog1 & Hps & Hpt & _
            & Hpr).
      change (bi_private (rq w0)) with (bi_private (rq ws)) in Hpt.
      rewrite Hpriv in Hpt.
      destruct (return_frame (exec (complete K E sis st) w0))
        as (Hc2 & Hi2 & Ho2 & Hlog2).
      unfold exec in *.
      change (bi_cnt (rq w0)) with (bi_cnt (rq ws)) in Hc1.
      change (PSWPIN w0) with (PSWPIN ws) in Hi1.
      change (PSWPOUT w0) with (PSWPOUT ws) in Ho1.
      change (log w0) with (log ws ++ wait_rounds E 0 d) in Hlog1.
      split; [reflexivity |]. split; [lia |]. split; [lia |].
      split; [lia |].
      exists (pre ++ wait_rounds E 0 d ++ post ++ return_events).
      destruct (wait_rounds_weights E d 0) as (Hds & Hdt & Hdr).
      split; [| split; [| split]].
      * rewrite Hlog2, Hlog1, Hlog. now rewrite <- !app_assoc.
      * rewrite !weigh_app, Hs, Hds, Hps. reflexivity.
      * rewrite !weigh_app, Ht, Hdt, Hpt. reflexivity.
      * rewrite !weigh_app, Hr, Hdr, Hpr. reflexivity.
    + split; [reflexivity |]. cbn [rq with_log PSWPIN PSWPOUT log].
      split; [exact Hcnt |]. split; [exact Hin |]. split; [exact Hout |].
      exists (pre ++ wait_rounds E 0 fuel). split; [| split; [| split]].
      * rewrite Hlog. now rewrite <- app_assoc.
      * rewrite weigh_app, Hs, Hws. reflexivity.
      * rewrite weigh_app, Ht, Hwt. reflexivity.
      * rewrite weigh_app, Hr, Hwr. reflexivity.
  - rewrite (while_synchronous_never K E sis (current E) Hdone fuel 0%nat ws
               Hpriv).
    unfold after_loop; cbn [fst snd].
    split; [reflexivity |]. cbn [rq with_log PSWPIN PSWPOUT log].
    split; [exact Hcnt |]. split; [exact Hin |]. split; [exact Hout |].
    exists (pre ++ wait_rounds E 0 fuel). split; [| split; [| split]].
    + rewrite Hlog. now rewrite <- app_assoc.
    + rewrite weigh_app, Hs, Hws. reflexivity.
    + rewrite weigh_app, Ht, Hwt. reflexivity.
    + rewrite weigh_app, Hr, Hwr. reflexivity.
Qed.

(** The books of the part the read paths share, on every exit. *)
Lemma read_after_frontswap_books (K : kconfig) (E : ext)
    (sis : swap_info_struct) (synchronous : bool) (fuel : nat) (w : world) :
  let r := eval (read_after_frontswap K E sis synchronous fuel) w in
  let w' := exec (read_after_frontswap K E sis synchronous fuel) w in
  exists evs,
    log w' = log w ++ evs /\
    weigh stall_section evs = match r with None => 1 | Some _ => 0 end /\
    PSWPIN w' = PSWPIN w + weigh read_started evs /\
    0 <= weigh read_started evs <= 1 /\
    (synchronous = false -> r <> None).
Proof.
  destruct (has_flag sis (SWP_FS K)) eqn:Hfs.
  { unfold read_after_frontswap. unfold_io. rewrite Hfs.
    destruct w as [p b o i t l]; cbn.
    destruct (readpage E p) as [r1 p1]; cbn.
    destruct (r1 =? 0) eqn:Hr1; cbn;
      (eexists; split; [fix_log; reflexivity |]); cbn; rewrite Hr1; cbn;
      rewrite ?Z.add_0_r; repeat split; try reflexivity; try lia;
      discriminate. }
  destruct (fst (bdev_read_page E (swap_page_sector K E (pg w)) (pg w)) =? 0)
    eqn:Hfast.
  { unfold read_after_frontswap. unfold_io. rewrite Hfs.
    destruct w as [p b o i t l]; cbn in *.
    destruct (bdev_read_page E (swap_page_sector K E p) p) as [r1 p1];
      cbn in *.
    rewrite Hfast. cbn.
    destruct (PG_locked p1); cbn;
      [| destruct (PG_swapcache p1); cbn;
         [destruct (has_flag sis (SWP_BLKDEV K)); cbn;
          [destruct (fops_swap_slot_free_notify sis); cbn;
           [destruct (__swap_count E (page_private p1) =? 1); cbn|]|]|]];
      (eexists; split; [fix_log; reflexivity |]); cbn; rewrite Hfast; cbn;
      repeat split; try reflexivity; try lia; discriminate. }
  apply Z.eqb_neq in Hfast.
  destruct (bio_alloc E) eqn:Halloc.
  2: { unfold read_after_frontswap. unfold_io. rewrite Hfs, Halloc.
       destruct w as [p b o i t l]; cbn in *.
       destruct (bdev_read_page E (swap_page_sector K E p) p) as [r1 p1];
         cbn in *.
       apply Z.eqb_neq in Hfast. rewrite Hfast. cbn.
       (eexists; split; [fix_log; reflexivity |]); cbn; rewrite Hfast; cbn;
       rewrite ?Z.add_0_r; repeat split; try reflexivity; try lia;
       discriminate. }
  destruct synchronous.
  - destruct (generic_blocking_read_balance K E sis fuel w Hfs Hfast Halloc)
      as (Hr & _ & Hin & _ & evs & Hlog & Hst & _ & Hrs).
    cbv zeta. exists evs. rewrite Hr, Hin, Hrs.
    split; [exact Hlog |]. split.
    + rewrite Hst. destruct (completion E) as [[d st]|];
        [destruct (d <? fuel)%nat |]; reflexivity.
    + repeat split; try lia; try discriminate.
  - unfold read_after_frontswap. rewrite !while_not_synchronous.
    unfold_io. rewrite Hfs, Halloc.
    destruct w as [p b o i t l]; cbn in *.
    destruct (bdev_read_page E (swap_page_sector K E p) p) as [r1 p1];
      cbn in *.
    apply Z.eqb_neq in Hfast. rewrite Hfast. cbn.
    unfold map_swap_page. cbn.
    (eexists; split; [fix_log; reflexivity |]); cbn; rewrite Hfast; cbn;
    repeat split; try reflexivity; try lia; discriminate.
Qed.

Lemma read_entry_books (K : kconfig) (E : ext) (sis : swap_info_struct)
    (synchronous : bool) (fuel : nat) (c : callee)
    (load : page -> Z * page) (w : world)
    (Hc : forall r, read_started (EvCall c r) = 0) :
  let m := (r <- call_page c load ;;
            if r =? 0 then ret (Some 0)
            else read_after_frontswap K E sis synchronous fuel) in
  exists evs,
    log (exec m w) = log w ++ evs /\
    weigh stall_section evs =
      match eval m w with None => 1 | Some _ => 0 end /\
    PSWPIN (exec m w) = PSWPIN w + weigh read_started evs /\
    0 <= weigh read_started evs <= 1 /\
    (synchronous = false -> eval m w <> None).
Proof.
  unfold exec, eval, bind, call_page.
  destruct (load (pg w)) as [r0 p0].
  destruct (r0 =? 0) eqn:Hr0.
  - exists [EvCall c r0]. unfold weigh. cbn [fold_right]. rewrite Hc.
    cbn. rewrite Z.add_0_r.
    repeat split; try reflexivity; try lia; try discriminate.
  - set (w0 := with_log (log w ++ [EvCall c r0]) (with_pg p0 w)).
    destruct (read_after_frontswap_books K E sis synchronous fuel w0)
      as (evs & Hlog & Hst & Hin & Hrange & Hsome).
    unfold exec, eval in *.
    exists (EvCall c r0 :: evs).
    assert (Hw : weigh read_started (EvCall c r0 :: evs) =
                 weigh read_started evs).
    { change (weigh read_started (EvCall c r0 :: evs))
        with (read_started (EvCall c r0) + weigh read_started evs).
      rewrite Hc. lia. }
    rewrite Hw.
    split; [| split; [| split; [| split]]].
    + rewrite Hlog. subst w0. cbn [log with_log]. now rewrite <- app_assoc.
    + rewrite <- Hst. destruct c; reflexivity.
    + exact Hin.
    + exact Hrange.
    + exact Hsome.
Qed.

(** X8.  The memory-stall section of a read.  Whatever the collaborators
    answer, a read entry point that has returned has closed every stall
    section it opened (a front-end cache hit opens none); only a
    blocking caller that is still in the waiting loop has one open.
    [swap_readpage_async] always returns. *)
Theorem read_stall_sections_closed (K : kconfig) (E : ext)
    (sis : swap_info_struct) (synchronous : bool) (fuel : nat) (w : world) :
  (exists evs,
     log (exec (swap_readpage K E sis synchronous fuel) w) = log w ++ evs /\
     weigh stall_section evs =
       match eval (swap_readpage K E sis synchronous fuel) w with
       | None => 1
       | Some _ => 0
       end) /\
  (exists evs,
     log (exec (swap_readpage_async K E sis fuel) w) = log w ++ evs /\
     weigh stall_section evs = 0).
Proof.
  split.
  - destruct (read_entry_books K E sis synchronous fuel FrontswapLoad
                (frontswap_load E) w (fun _ => eq_refl))
      as (evs & Hlog & Hst & _).
    exists evs. split; [exact Hlog | exact Hst].
  - destruct (read_entry_books K E sis false fuel FrontswapLoadAsync
                (frontswap_load_async E) w (fun _ => eq_refl))
      as (evs & Hlog & Hst & _ & _ & Hsome).
    exists evs. split; [exact Hlog |].
    cbv zeta in Hst, Hsome.
    change (r <- call_page FrontswapLoadAsync (frontswap_load_async E) ;;
            (if r =? 0 then ret (Some 0)
             else read_after_frontswap K E sis false fuel))
      with (swap_readpage_async K E sis fuel) in *.
    destruct (eval (swap_readpage_async K E sis fuel) w);
      [exact Hst | exfalso; now apply Hsome].
Qed.

(** X9.  Read accounting.  Whatever the collaborators answer, a call of
    a read entry point raises the pages-read counter by one exactly when
    it started a transfer (the filesystem read reported success, the
    device fast path took the read, or a request was submitted) and
    leaves it alone otherwise; a front-end cache hit, a failed
    filesystem read and a failed allocation are not counted, and a
    request is counted at submission whatever its completion is. *)
Theorem read_accounting (K : kconfig) (E : ext)
    (sis : swap_info_struct) (synchronous : bool) (fuel : nat) (w : world) :
  (exists evs,
     log (exec (swap_readpage K E sis synchronous fuel) w) = log w ++ evs /\
     PSWPIN (exec (swap_readpage K E sis synchronous fuel) w) =
       PSWPIN w + weigh read_started evs /\
     0 <= weigh read_started evs <= 1) /\
  (exists evs,
     log (exec (swap_readpage_async K E sis fuel) w) = log w ++ evs /\
     PSWPIN (exec (swap_readpage_async K E sis fuel) w) =
       PSWPIN w + weigh read_started evs /\
     0 <= weigh read_started evs <= 1).
Proof.
  split.
  - destruct (read_entry_books K E sis synchronous fuel FrontswapLoad
                (frontswap_load E) w (fun _ => eq_refl))
      as (evs & Hlog & _ & Hin & Hrange & _).
    exists evs. repeat split; try assumption; apply Hrange.
  - destruct (read_entry_books K E sis false fuel FrontswapLoadAsync
                (frontswap_load_async E) w (fun _ => eq_refl))
      as (evs & Hlog & _ & Hin & Hrange & _).
    exists evs. repeat split; try assumption; apply Hrange.
Qed.



(** ** Activation *)


(** X11.  The scan of [generic_swapfile_activate] ends on every file:
    each turn of the loop that does not leave it moves [probe_block] or
    [page_no] forward, so the call returns whatever the block map looks
    like (aligned or not, contiguous or not, with or without holes). *)
Theorem activation_returns (K : kconfig) (sis : swap_info_struct)
    (ino : inode) (span0 : Z)
    (Hbits : 0 <= i_blkbits ino)
    (Hsize : 0 <= i_size ino < 2 ^ 63)
    (Hmax : 0 <= max sis < 2 ^ 64) :
  exists ret sis' span,
    generic_swapfile_activate K add_swap_extent sis ino span0 = Some (ret, sis', span).
Proof.
  unfold generic_swapfile_activate.
  destruct (last_block_bound ino Hbits Hsize) as [Hlast Hrange].
  rewrite Hlast.
  assert (Hbpp : 0 <= u32 (Z.shiftr (PAGE_SIZE K) (i_blkbits ino)) < 2 ^ 32)
    by (apply Z.mod_pos_bound; lia).
  pose proof (activate_loop_terminates K add_swap_extent ino _ _
                add_swap_extent_keeps_max Hbpp Hrange
                (activate_fuel (Z.shiftr (i_size ino) (i_blkbits ino)) sis)
                {| probe_block := 0; page_no := 0; lowest_block := u64 (-1);
                   highest_block := 0; nr_extents := 0; store := sis |})
    as Hrun.
  cbn [probe_block page_no store] in Hrun.
  destruct (activate_loop K add_swap_extent _ ino _ _ _) as [[s | ret sis' | sis']|].
  - eexists _, _, _. reflexivity.
  - eexists _, _, _. reflexivity.
  - eexists _, _, _. reflexivity.
  - exfalso. apply Hrun; try lia; try reflexivity.
    unfold activate_fuel. lia.
Qed.

Lemma activation_returns_witness :
  exists ret sis' span,
    generic_swapfile_activate linux_x86_64 add_swap_extent (fresh_store 2)
      file_with_late_hole 0 = Some (ret, sis', span).
Proof.
  apply (activation_returns linux_x86_64 (fresh_store 2)
           file_with_late_hole 0).
  - cbn. lia.
  - cbn. lia.
  - cbn. lia.
Defined.






(** X13.  A file shorter than one page, or a store that declares no
    slot: the loop is never entered, no block is asked of [bmap], and
    the call still succeeds.  It returns 0 extents, leaves the extent
    list alone, sets the slot count to 1 with [pages] and [highest_bit]
    0, and reports a span of 2: lowest stays at (sector_t)-1 and highest
    at 0, so [1 + highest - lowest] wraps around to 2. *)
Theorem activation_of_nothing (K : kconfig) (sis : swap_info_struct)
    (ino : inode) (span0 : Z)
    (Hbits : 0 <= i_blkbits ino <= PAGE_SHIFT K)
    (Hword : PAGE_SHIFT K - i_blkbits ino < 32)
    (Hsize : 0 <= i_size ino < 2 ^ 63)
    (Hnothing : i_size ino < PAGE_SIZE K \/ max sis <= 0) :
  generic_swapfile_activate K add_swap_extent sis ino span0 =
    Some (0, set_slot_counts sis 1, 2) /\
  max (set_slot_counts sis 1) = 1 /\
  pages (set_slot_counts sis 1) = 0 /\
  highest_bit (set_slot_counts sis 1) = 0 /\
  extents (set_slot_counts sis 1) = extents sis.
Proof.
  split; [| repeat split; reflexivity].
  unfold generic_swapfile_activate.
  rewrite blocks_per_page_pow2 by lia.
  destruct (last_block_bound ino) as [Hlast Hrange]; [lia | lia |].
  rewrite Hlast.
  pose proof (bpp_range K (i_blkbits ino) Hbits Hword) as Hb.
  unfold activate_fuel. cbn [activate_loop probe_block page_no store].
  rewrite Z.add_0_l, u64_small by lia.
  replace ((2 ^ (PAGE_SHIFT K - i_blkbits ino) <=?
            Z.shiftr (i_size ino) (i_blkbits ino)) && (0 <? max sis))
    with false.
  - reflexivity.
  - symmetry. apply andb_false_iff.
    destruct Hnothing as [Hshort | Hzero].
    + left. apply Z.leb_gt.
      rewrite Z.shiftr_div_pow2 by lia.
      apply Z.div_lt_upper_bound; [apply Z.pow_pos_nonneg; lia |].
      rewrite <- Z.pow_add_r by lia.
      replace (i_blkbits ino + (PAGE_SHIFT K - i_blkbits ino))
        with (PAGE_SHIFT K) by lia.
      unfold PAGE_SIZE in Hshort. now rewrite Z.shiftl_1_l in Hshort.
    + right. apply Z.ltb_ge. lia.
Qed.

Lemma activation_of_nothing_witness :
  generic_swapfile_activate linux_x86_64 add_swap_extent (fresh_store 8) short_file 5 =
    Some (0, set_slot_counts (fresh_store 8) 1, 2) /\
  max (set_slot_counts (fresh_store 8) 1) = 1 /\
  pages (set_slot_counts (fresh_store 8) 1) = 0 /\
  highest_bit (set_slot_counts (fresh_store 8) 1) = 0 /\
  extents (set_slot_counts (fresh_store 8) 1) = extents (fresh_store 8).
Proof.
  apply (activation_of_nothing linux_x86_64 (fresh_store 8) short_file 5).
  - cbn. lia.
  - cbn. lia.
  - cbn. lia.
  - left. cbn. lia.
Defined.

Section ContiguousFileOfAnySize.
Context (K : kconfig) (blkbits base n : Z).
Local Abbreviation bpp := (2 ^ (PAGE_SHIFT K - blkbits)).
Local Abbreviation file := (contiguous_file K blkbits base n).
Local Abbreviation B := (base / bpp).
Hypothesis Hbits : 0 <= blkbits <= PAGE_SHIFT K.
Hypothesis Hword : PAGE_SHIFT K - blkbits < 32.
Hypothesis Hbase : 0 < base.
Hypothesis Haligned : base mod bpp = 0.
Hypothesis Hn : 1 <= n.
Hypothesis Hfits : base + n * bpp < 2 ^ 64.

Lemma aligned_base_bounds : bpp <= base /\ 0 < B /\ B <= base.
Proof using Hbits Hword Hbase Haligned.
  clear Hfits Hn.
  pose proof (bpp_range K blkbits Hbits Hword) as Hb.
  pose proof (Z.div_mod base bpp ltac:(lia)) as Hdm.
  rewrite Haligned, Z.add_0_r in Hdm.
  assert (HB : 0 < B) by nia.
  repeat split; try exact HB; nia.
Qed.

(** One turn of the loop at the start of slot [j]. *)
Lemma any_size_step (fuel : nat) (j lo hi ne : Z)
    (st : swap_info_struct) :
  0 <= j < n -> j < max st ->
  let first := B + j in
  activate_loop K add_swap_extent (S fuel) file bpp (n * bpp)
    {| probe_block := j * bpp; page_no := j; lowest_block := lo;
       highest_block := hi; nr_extents := ne; store := st |} =
  activate_loop K add_swap_extent fuel file bpp (n * bpp)
    {| probe_block := (j + 1) * bpp; page_no := j + 1;
       lowest_block :=
         if negb (j =? 0) && (first <? lo) then first else lo;
       highest_block :=
         if negb (j =? 0) && (first >? hi) then first else hi;
       nr_extents := s32 (ne + fst (add_swap_extent st j 1 first));
       store := snd (add_swap_extent st j 1 first) |}.
Proof.
  intros Hj Hmax first.
  pose proof (bpp_range K blkbits Hbits Hword) as Hb.
  assert (H1 : (u64 (j * bpp + bpp) <=? n * bpp) = true).
  { rewrite u64_small by nia. apply Z.leb_le. nia. }
  assert (H2 : (j <? max st) = true) by (apply Z.ltb_lt; lia).
  assert (H4 : (base + j * bpp =? 0) = false) by (apply Z.eqb_neq; nia).
  assert (H5 : Z.land (base + j * bpp) (u32 (bpp - 1)) = 0).
  { rewrite u32_small by lia.
    replace (bpp - 1) with (Z.ones (PAGE_SHIFT K - blkbits))
      by (rewrite Z.ones_equiv; lia).
    rewrite Z.land_ones by lia.
    rewrite Z.mod_add by lia. exact Haligned. }
  assert (H6 : for_block_in_page file (j * bpp) (base + j * bpp) 1
                 (Z.to_nat (bpp - 1)) = Contiguous).
  { apply for_block_in_page_contiguous_file; try lia; nia. }
  assert (H7 : Z.shiftr (base + j * bpp) (PAGE_SHIFT K - blkbits) = first).
  { rewrite Z.shiftr_div_pow2 by lia.
    unfold first. apply Z.div_add. lia. }
  pose proof (add_swap_extent_effect st j 1 first) as (Hret & _).
  cbn [activate_loop probe_block page_no store lowest_block highest_block
         nr_extents].
  rewrite H1, H2. cbn [andb].
  change (bmap file (j * bpp)) with (base + j * bpp).
  change (i_blkbits file) with blkbits.
  rewrite H4, H5. cbn [Z.eqb negb]. rewrite H6, H7.
  destruct (add_swap_extent st j 1 first) as [ret st'].
  cbn [fst snd] in *.
  replace (ret <? 0) with false by (symmetry; apply Z.ltb_ge; lia).
  rewrite (u64_small (j * bpp + bpp)) by nia.
  rewrite (u64_small (j + 1)) by nia.
  replace (j * bpp + bpp) with ((j + 1) * bpp) by ring.
  reflexivity.
Qed.

(** The loop ends at slot [k] when the file or the declared slots are
    used up. *)
Lemma any_size_end (fuel : nat) (k lo hi ne : Z) (st : swap_info_struct) :
  0 <= k <= n -> k = n \/ k = max st ->
  activate_loop K add_swap_extent (S fuel) file bpp (n * bpp)
    {| probe_block := k * bpp; page_no := k; lowest_block := lo;
       highest_block := hi; nr_extents := ne; store := st |} =
  Some (LoopEnd
    {| probe_block := k * bpp; page_no := k; lowest_block := lo;
       highest_block := hi; nr_extents := ne; store := st |}).
Proof.
  intros Hk Hstop.
  pose proof (bpp_range K blkbits Hbits Hword) as Hb.
  pose proof aligned_base_bounds as (Hbb & _).
  cbn [activate_loop probe_block page_no store].
  rewrite u64_small by nia.
  replace ((k * bpp + bpp <=? n * bpp) && (k <? max st)) with false;
    [reflexivity |].
  symmetry. apply andb_false_iff.
  destruct Hstop as [-> | Hm].
  - left. apply Z.leb_gt. lia.
  - right. apply Z.ltb_ge. lia.
Qed.

(** From slot [j] on, the scan runs to slot [k], the smaller of the
    pages of the file and the declared slots. *)
Lemma any_size_scan_from (sis : swap_info_struct) (k : Z) :
  k <= n -> k <= max sis -> k = n \/ k = max sis ->
  forall (d : nat) (j : Z) (fuel : nat),
    1 <= j -> j + Z.of_nat d = k -> (d < fuel)%nat ->
    activate_loop K add_swap_extent fuel file bpp (n * bpp) (contiguous_scan_at sis bpp B j) =
    Some (LoopEnd (contiguous_scan_at sis bpp B k)).
Proof.
  intros Hkn Hkm Hstop.
  pose proof aligned_base_bounds as (Hbb & HB0 & HBb).
  pose proof (bpp_range K blkbits Hbits Hword) as Hb.
  induction d as [|d IH]; intros j fuel Hj Hd Hfuel;
    (destruct fuel as [|fuel]; [lia |]).
  - replace j with k by lia.
    unfold contiguous_scan_at. apply any_size_end; [lia |].
    cbn [max set_extents]. exact Hstop.
  - unfold contiguous_scan_at at 1.
    rewrite any_size_step by (cbn [max set_extents]; lia).
    rewrite (add_swap_extent_next sis j B). cbn [fst snd].
    rewrite <- (IH (j + 1) fuel) by lia.
    f_equal. unfold contiguous_scan_at. f_equal.
    + replace (j =? 0) with false by (symmetry; apply Z.eqb_neq; lia).
      replace (j + 1 =? 1) with false by (symmetry; apply Z.eqb_neq; lia).
      cbn [negb andb].
      destruct (j =? 1) eqn:Hj1.
      * apply Z.eqb_eq in Hj1. subst j.
        replace (B + 1 <? u64 (-1)) with true; [reflexivity |].
        symmetry. apply Z.ltb_lt. change (u64 (-1)) with (2 ^ 64 - 1). nia.
      * replace (B + j <? B + 1) with false; [reflexivity |].
        symmetry. apply Z.ltb_ge. lia.
    + replace (j =? 0) with false by (symmetry; apply Z.eqb_neq; lia).
      replace (j + 1 =? 1) with false by (symmetry; apply Z.eqb_neq; lia).
      cbn [negb andb].
      destruct (j =? 1) eqn:Hj1.
      * apply Z.eqb_eq in Hj1. subst j.
        replace (B + 1 >? 0) with true; [lia |].
        symmetry. apply Z.gtb_lt. lia.
      * replace (B + j >? B + j - 1) with true; [lia |].
        symmetry. apply Z.gtb_lt. lia.
Qed.

(** The whole scan, from the entry of the loop. *)
Lemma any_size_scan (sis : swap_info_struct) (fuel : nat) :
  extents sis = [] -> 1 <= max sis ->
  (Z.to_nat (Z.min n (max sis)) < fuel)%nat ->
  activate_loop K add_swap_extent fuel file bpp (n * bpp)
    {| probe_block := 0; page_no := 0; lowest_block := u64 (-1);
       highest_block := 0; nr_extents := 0; store := sis |} =
  Some (LoopEnd (contiguous_scan_at sis bpp B (Z.min n (max sis)))).
Proof.
  intros Hempty Hmax Hfuel.
  destruct fuel as [|fuel]; [lia |].
  change (activate_loop K add_swap_extent (S fuel) file bpp (n * bpp)
            {| probe_block := 0 * bpp; page_no := 0;
               lowest_block := u64 (-1); highest_block := 0;
               nr_extents := 0; store := sis |} =
          Some (LoopEnd (contiguous_scan_at sis bpp B (Z.min n (max sis))))).
  rewrite (any_size_step fuel 0 (u64 (-1)) 0 0 sis) by lia.
  rewrite Z.add_0_r, (add_swap_extent_first sis B Hempty).
  cbn [fst snd Z.eqb negb andb].
  apply (any_size_scan_from sis (Z.min n (max sis)) ltac:(lia) ltac:(lia)
           ltac:(lia)
           (Z.to_nat (Z.min n (max sis) - 1)) 1 fuel); lia.
Qed.
End ContiguousFileOfAnySize.

(** X14.  A file of [n] pages (1 or more) whose blocks are physically
    contiguous from a page-aligned block [base], activated on a store
    with an empty extent list that declares [max] slots (1 or more):
    with [k] the smaller of [n] and [max], the call returns 1, the one
    extent maps slots 0 to [k - 1] to the page-sized blocks from
    [base / blocks_per_page], and the slot count becomes [k].  The span
    is [k - 1] (slot 0 takes no part in lowest/highest), but 2 when [k]
    is 1, where lowest and highest are never set. *)
Theorem activate_contiguous_file (K : kconfig) (sis : swap_info_struct)
    (blkbits base n span0 : Z)
    (Hbits : 0 <= blkbits <= PAGE_SHIFT K)
    (Hword : PAGE_SHIFT K - blkbits < 32)
    (Hbase : 0 < base)
    (Haligned : base mod 2 ^ (PAGE_SHIFT K - blkbits) = 0)
    (Hn : 1 <= n)
    (Hfits : base + n * 2 ^ (PAGE_SHIFT K - blkbits) < 2 ^ 64)
    (Hempty : extents sis = [])
    (Hmax : 1 <= max sis) :
  let k := Z.min n (max sis) in
  let extent := {| start_page := 0; nr_pages := k;
                   start_block := base / 2 ^ (PAGE_SHIFT K - blkbits) |} in
  generic_swapfile_activate K add_swap_extent sis (contiguous_file K blkbits base n) span0 =
    Some (1, set_slot_counts (set_extents sis [extent]) k,
          if k =? 1 then 2 else k - 1).
Proof.
  intros k extent.
  pose proof (bpp_range K blkbits Hbits Hword) as Hb.
  pose proof (aligned_base_bounds K blkbits base Hbits Hword Hbase Haligned)
    as (Hbb & HB0 & HBb).
  unfold generic_swapfile_activate.
  change (i_blkbits (contiguous_file K blkbits base n)) with blkbits.
  change (i_size (contiguous_file K blkbits base n)) with (n * PAGE_SIZE K).
  rewrite blocks_per_page_pow2 by lia.
  assert (Hlast : u64 (Z.shiftr (n * PAGE_SIZE K) blkbits) =
                  n * 2 ^ (PAGE_SHIFT K - blkbits)).
  { unfold PAGE_SIZE. rewrite Z.shiftl_1_l, Z.shiftr_div_pow2 by lia.
    replace (n * 2 ^ PAGE_SHIFT K)
      with (n * 2 ^ (PAGE_SHIFT K - blkbits) * 2 ^ blkbits).
    - rewrite Z.div_mul by (apply Z.pow_nonzero; lia).
      apply u64_small. nia.
    - rewrite <- Z.mul_assoc, <- Z.pow_add_r by lia.
      do 2 f_equal. lia. }
  rewrite Hlast.
  rewrite (any_size_scan K blkbits base n Hbits Hword Hbase Haligned Hn
             Hfits sis _ Hempty Hmax).
  2: { unfold activate_fuel. fold k.
       assert (k <= max sis) by (unfold k; lia).
       clear - H Hmax. lia. }
  fold k. unfold contiguous_scan_at.
  cbn [nr_extents highest_block lowest_block page_no store].
  assert (Hk : 1 <= k) by (unfold k; lia).
  replace (k =? 0) with false by (symmetry; apply Z.eqb_neq; lia).
  destruct (k =? 1) eqn:Hk1.
  - reflexivity.
  - apply Z.eqb_neq in Hk1. do 2 f_equal.
    set (B := base / 2 ^ (PAGE_SHIFT K - blkbits)) in *.
    replace (1 + (B + k - 1) - (B + 1)) with (k - 1) by lia.
    apply u64_small.
    assert (k <= n) by (unfold k; lia). clearbody k B. nia.
Qed.

Lemma activate_contiguous_file_witness :
  generic_swapfile_activate linux_x86_64 add_swap_extent (fresh_store 3)
    (contiguous_file linux_x86_64 10 8 5) 0 =
  Some (1,
        set_slot_counts
          (set_extents (fresh_store 3)
             [{| start_page := 0; nr_pages := Z.min 5 3;
                 start_block := 8 / 2 ^ (12 - 10) |}]) (Z.min 5 3),
        if Z.min 5 3 =? 1 then 2 else Z.min 5 3 - 1).
Proof.
  apply (activate_contiguous_file linux_x86_64 (fresh_store 3) 10 8 5 0).
  - cbn. lia.
  - cbn. lia.
  - lia.
  - reflexivity.
  - lia.
  - cbn. lia.
  - reflexivity.
  - cbn. lia.
Defined.





(** The error exit is taken: with no memory for an extent, the
    activation of a contiguous file returns -ENOMEM from the first
    slot, and the store and [*span] are as they were. *)
Lemma activation_hands_on_extent_error :
  generic_swapfile_activate linux_x86_64 (add_swap_extent_nomem 0)
    (fresh_store 3) (contiguous_file linux_x86_64 10 8 2) 7 =
  Some (-12, fresh_store 3, 7).
Proof. vm_compute. reflexivity. Qed.

(** ** The page-table walk of the prefetch *)

(** X16.  [filling_prefetch_pte] returns 1 or -1 and never 0 (so that
    both results are true when read as a truth value).  It returns 1
    exactly when all four levels of the table are present and the entry
    pointer is not NULL; then [ptes] is that pointer and nothing else of
    the request changes.  When it returns -1 the request is left as it
    was. *)
Theorem filling_prefetch_pte_result (T : pgtable) (v : vm_fault_prefetch) :
  let r := fst (filling_prefetch_pte T v) in
  let v' := snd (filling_prefetch_pte T v) in
  r <> 0 /\
  (walk_reaches_pte T v = true ->
     r = 1 /\ ptes v' <> 0 /\
     ptes v' =
       pte_offset_map T
         (pmd_offset T
            (pud_offset T
               (p4d_offset T
                  (pgd_offset T (vma_vm_mm v) (start_address v))
                  (start_address v))
               (start_address v))
            (start_address v))
         (start_address v) /\
     start_address v' = start_address v /\ vma_vm_mm v' = vma_vm_mm v /\
     prefetch_num v' = prefetch_num v) /\
  (walk_reaches_pte T v = false -> r = -1 /\ v' = v).
Proof.
  unfold filling_prefetch_pte, walk_reaches_pte. cbv zeta.
  destruct (pgd_present T _); cbn [negb andb fst snd];
    [| repeat split; try discriminate; auto].
  destruct (p4d_present T _); cbn [negb andb fst snd];
    [| repeat split; try discriminate; auto].
  destruct (pud_present T _); cbn [negb andb fst snd];
    [| repeat split; try discriminate; auto].
  destruct (pmd_present T _); cbn [negb andb fst snd];
    [| repeat split; try discriminate; auto].
  destruct (pte_offset_map T _ _ =? 0) eqn:Hnull; cbn [negb andb fst snd].
  - repeat split; try discriminate; auto.
  - apply Z.eqb_neq in Hnull.
    repeat split; try discriminate; auto.
Qed.

Lemma filling_prefetch_pte_result_witness :
  let r := fst (filling_prefetch_pte full_table heap_request) in
  let v' := snd (filling_prefetch_pte full_table heap_request) in
  r <> 0 /\
  (walk_reaches_pte full_table heap_request = true ->
     r = 1 /\ ptes v' <> 0 /\
     ptes v' =
       pte_offset_map full_table
         (pmd_offset full_table
            (pud_offset full_table
               (p4d_offset full_table
                  (pgd_offset full_table (vma_vm_mm heap_request)
                     (start_address heap_request))
                  (start_address heap_request))
               (start_address heap_request))
            (start_address heap_request))
         (start_address heap_request) /\
     start_address v' = start_address heap_request /\
     vma_vm_mm v' = vma_vm_mm heap_request /\
     prefetch_num v' = prefetch_num heap_request) /\
  (walk_reaches_pte full_table heap_request = false ->
     r = -1 /\ v' = heap_request).
Proof.
  apply (filling_prefetch_pte_result full_table heap_request).
Defined.

(** ** Latency profiling *)

Lemma land_page_mask (K : kconfig) (v : Z) :
  0 <= PAGE_SHIFT K < 64 -> 0 <= v < 2 ^ 64 ->
  Z.land v (PAGE_MASK K) = PAGE_SIZE K * (v / PAGE_SIZE K).
Proof.
  intros Hk Hv. unfold PAGE_MASK, PAGE_SIZE, u64, wrap.
  rewrite Z.shiftl_1_l.
  rewrite <- Z.land_ones by lia.
  rewrite (Z.land_comm (Z.lnot _)), Z.land_assoc.
  rewrite (Z.land_ones v) by lia.
  rewrite (Z.mod_small v) by lia.
  replace (2 ^ PAGE_SHIFT K - 1) with (Z.ones (PAGE_SHIFT K))
    by (rewrite Z.ones_equiv; lia).
  rewrite <- Z.ldiff_land, Z.ldiff_ones_r by lia.
  rewrite Z.shiftl_mul_pow2, Z.shiftr_div_pow2 by lia.
  apply Z.mul_comm.
Qed.

(** With a page-aligned start of the range, the index of an address of
    the range is the number of its page, counted from the start. *)
Lemma latency_page_offset_aligned (K : kconfig) (P : profiling) (v : Z) :
  0 <= PAGE_SHIFT K < 64 ->
  JVM_HEAP_START_ADDR P mod PAGE_SIZE K = 0 ->
  0 <= JVM_HEAP_START_ADDR P <= v -> v < 2 ^ 64 ->
  latency_page_offset K P v =
    v / PAGE_SIZE K - JVM_HEAP_START_ADDR P / PAGE_SIZE K /\
  0 <= latency_page_offset K P v.
Proof.
  intros Hk Hal Hs Hv.
  cut (latency_page_offset K P v =
       v / PAGE_SIZE K - JVM_HEAP_START_ADDR P / PAGE_SIZE K /\
       JVM_HEAP_START_ADDR P / PAGE_SIZE K <= v / PAGE_SIZE K).
  { intros [-> Hle]. split; [reflexivity | lia]. }
  unfold latency_page_offset.
  rewrite land_page_mask by lia.
  assert (Hps : PAGE_SIZE K = 2 ^ PAGE_SHIFT K)
    by (unfold PAGE_SIZE; apply Z.shiftl_1_l).
  assert (Hpos : 0 < PAGE_SIZE K)
    by (rewrite Hps; apply Z.pow_pos_nonneg; lia).
  pose proof (Z.div_mod (JVM_HEAP_START_ADDR P) (PAGE_SIZE K) ltac:(lia))
    as Hdm.
  rewrite Hal, Z.add_0_r in Hdm.
  assert (Hle : JVM_HEAP_START_ADDR P / PAGE_SIZE K <= v / PAGE_SIZE K)
    by (apply Z.div_le_mono; lia).
  assert (Hvd : PAGE_SIZE K * (v / PAGE_SIZE K) <= v)
    by (apply Z.mul_div_le; lia).
  set (s := JVM_HEAP_START_ADDR P / PAGE_SIZE K) in *.
  set (q := v / PAGE_SIZE K) in *.
  rewrite Hdm at 1.
  replace (PAGE_SIZE K * q - PAGE_SIZE K * s) with ((q - s) * PAGE_SIZE K)
    by ring.
  rewrite u64_small by (clearbody s q; nia).
  rewrite Z.shiftr_div_pow2, <- Hps by lia.
  rewrite Z.div_mul by lia.
  split; [reflexivity | exact Hle].
Qed.





(** X19.  After [reset_uffd_prefetch_latency_array], a hint received for
    a page of the range before any fault was delivered for it runs into
    BUG_ON and does not return (the range being page-aligned at its
    start and no longer than the array). *)
Theorem latency_receipt_after_reset (K : kconfig) (P : profiling)
    (st : latency_state) (v t : Z)
    (Hshift : 0 <= PAGE_SHIFT K < 64)
    (Haligned : JVM_HEAP_START_ADDR P mod PAGE_SIZE K = 0)
    (Hstart : 0 <= JVM_HEAP_START_ADDR P)
    (Hend : JVM_HEAP_END_ADDR P < 2 ^ 64)
    (Hlen : JVM_HEAP_END_ADDR P / PAGE_SIZE K -
            JVM_HEAP_START_ADDR P / PAGE_SIZE K <
            UFFD_PROFILING_ARRAY_LEN P)
    (Hv : JVM_HEAP_START_ADDR P <= v <= JVM_HEAP_END_ADDR P) :
  uffd_prefetch_received K P v t
    (reset_uffd_prefetch_latency_array P st) = None.
Proof.
  destruct (latency_page_offset_aligned K P v) as [Ho Hnn]; try lia.
  assert (Hps : 0 < PAGE_SIZE K).
  { unfold PAGE_SIZE. rewrite Z.shiftl_1_l. apply Z.pow_pos_nonneg; lia. }
  assert (Hle : v / PAGE_SIZE K <= JVM_HEAP_END_ADDR P / PAGE_SIZE K)
    by (apply Z.div_le_mono; lia).
  unfold uffd_prefetch_received.
  replace (v <? JVM_HEAP_START_ADDR P) with false
    by (symmetry; apply Z.ltb_ge; lia).
  replace (v >? JVM_HEAP_END_ADDR P) with false
    by (symmetry; rewrite Z.gtb_ltb; apply Z.ltb_ge; lia).
  cbn [orb]. cbv zeta.
  unfold reset_uffd_prefetch_latency_array at 1.
  cbn [uffd_prefetch_lantecy].
  replace (0 <=? latency_page_offset K P v) with true
    by (symmetry; apply Z.leb_le; lia).
  replace (latency_page_offset K P v <? UFFD_PROFILING_ARRAY_LEN P)
    with true by (symmetry; apply Z.ltb_lt; lia).
  reflexivity.
Qed.

Lemma latency_receipt_after_reset_witness :
  uffd_prefetch_received linux_x86_64 small_heap (2 ^ 32 + 4100) 80
    (reset_uffd_prefetch_latency_array small_heap stale_array) = None.
Proof.
  apply (latency_receipt_after_reset linux_x86_64 small_heap stale_array
           (2 ^ 32 + 4100) 80).
  - cbn. lia.
  - reflexivity.
  - cbn. lia.
  - cbn. lia.
  - vm_compute. reflexivity.
  - cbn. lia.
Defined.
